(** * Pill splitter: a shallow embedding of the two splitting widgets

    The repository holds two near-duplicate "pill splitter" components:

    - the flat-colour component ([Module Flat]): [splitPillsAt],
      [handleMouseDown], [handleMouseMove], [handleMouseUp];
    - the corner-rounding component ([Module Corner]): [splitBorderRadius],
      [splitPillPart], [movePartAside], [onSingleClick], [onMouseDown],
      [onMouseMove], [onMouseUp].

    JavaScript numbers are modelled as exact rationals [Q] (IEEE rounding,
    NaN and the infinities are left out); [Math.max], [Math.min] and
    [Math.abs] are [Qmax], [Qmin] and [Qabs].  Statements are written with
    the expressions the code computes, in the code's order of operations, so
    that they do not lean on cancellations the code's doubles lack; where
    rounding itself is the point, [Module FlatD] gives the callback of
    [splitPillsAt] in binary64 arithmetic.  React state is threaded
    explicitly: a handler is a function from the component state to the
    next one, the queued [setPills] updaters being applied in the order
    they were queued.  [Math.random] and [generateId] read an explicit
    random source. *)

From Stdlib Require Import QArith Qminmax Qabs Qround Lqa ZArith.
From Stdlib Require Import List String Bool Lia DecimalString Permutation.
From Stdlib Require Import PrimFloat.
Import ListNotations.
Local Open Scope Q_scope.

(** ** Number comparisons as the code writes them *)

Module Num.
Definition ltb (a b : Q) : bool := negb (Qle_bool b a).
Definition gtb (a b : Q) : bool := ltb b a.
Definition leb (a b : Q) : bool := Qle_bool a b.
Definition geb (a b : Q) : bool := Qle_bool b a.
End Num.

Infix "<?" := Num.ltb (at level 70, no associativity) : Q_scope.
Infix ">?" := Num.gtb (at level 70, no associativity) : Q_scope.
Infix "<=?" := Num.leb (at level 70, no associativity) : Q_scope.
Infix ">=?" := Num.geb (at level 70, no associativity) : Q_scope.

(** [Math.hypot(a, b) < d] for a non-negative [d]: the square root is not
    rational, so the test is taken on the squares. *)
Definition hypot_ltb (a b d : Q) : bool := a * a + b * b <? d * d.

(** ** The random source

    [ids r n] is the string the [n]-th draw yields when it is made by
    [generateId()], [floats r n] the number in [0, 1) it yields when it is
    made by [Math.random()]; [used r] counts the draws made so far. *)

Record Rand : Type := mkRand {
  ids : nat -> string;
  floats : nat -> Q;
  used : nat
}.

Definition tick (r : Rand) : Rand := mkRand (ids r) (floats r) (S (used r)).

Definition M (A : Type) : Type := Rand -> A * Rand.

Definition ret {A : Type} (a : A) : M A := fun r => (a, r).

Definition bind {A B : Type} (c : M A) (k : A -> M B) : M B :=
  fun r => let (a, r') := c r in k a r'.

Notation "x <- c ;; k" := (bind c (fun x => k))
  (at level 61, c at next level, right associativity).

Definition Math_random : M Q := fun r => (floats r (used r), tick r).

Definition generateId : M string := fun r => (ids r (used r), tick r).

(** [prev.flatMap(f)] for a callback that draws from the random source:
    the callback runs on the elements from left to right. *)
Fixpoint flatMapM {A B : Type} (f : A -> M (list B)) (l : list A) : M (list B) :=
  match l with
  | [] => ret []
  | a :: l' => bs <- f a ;; rest <- flatMapM f l' ;; ret (bs ++ rest)
  end.

(** The pointer event and the measured container. *)
Record MouseEvent : Type := mkEvent { clientX : Q; clientY : Q }.

Record Container : Type := mkContainer {
  rect_left : Q;
  rect_top : Q;
  clientWidth : Q;
  clientHeight : Q
}.

Record Point : Type := mkPoint { px : Q; py : Q }.

(** ** The flat-colour component *)

Module Flat.

Definition SHAPE_BORDER_RADIUS : Q := 20.
Definition MIN_DRAW_SIZE : Q := 40.
Definition MIN_SPLIT_SIZE : Q := 20.

Definition PILL_COLORS : list string :=
  ["#60a5fa"; "#34d399"; "#f87171"]%string.

Record Pill : Type := mkPill {
  id : string;
  x : Q;
  y : Q;
  w : Q;
  h : Q;
  color : string
}.

Record DrawState : Type := mkDraw { sx : Q; sy : Q; ex : Q; ey : Q }.
Record DragState : Type := mkDrag { drag_id : string; dx : Q; dy : Q }.
Record ClickRef : Type := mkClick {
  click_x : Q; click_y : Q; click_time : Z; click_id : string
}.

Record State : Type := mkState {
  pills : list Pill;
  cursor : Point;
  drawState : option DrawState;
  dragState : option DragState;
  clickRef : ClickRef
}.

(** [PILL_COLORS[Math.floor(Math.random() * PILL_COLORS.length)]] *)
Definition getRandomColor : M string :=
  u <- Math_random ;;
  ret (nth (Z.to_nat (Qfloor (u * inject_Z (Z.of_nat (List.length PILL_COLORS)))))
           PILL_COLORS "undefined"%string).

(** [getRelativePosition]: [rect?.left ?? 0], [rect?.top ?? 0]. *)
Definition getRelativePosition (containerRef : option Container) (e : MouseEvent)
  : Point :=
  mkPoint
    (clientX e - match containerRef with Some c => rect_left c | None => 0 end)
    (clientY e - match containerRef with Some c => rect_top c | None => 0 end).

(** The callback [splitPillsAt] hands to [prev.flatMap]. *)
Definition splitPill (splitX splitY : Q) (pill : Pill) : M (list Pill) :=
  let withinX := (x pill <? splitX) && (x pill + w pill >? splitX) in
  let withinY := (y pill <? splitY) && (y pill + h pill >? splitY) in
  let leftWidth := splitX - x pill in
  let rightWidth := x pill + w pill - splitX in
  let topHeight := splitY - y pill in
  let bottomHeight := y pill + h pill - splitY in
  if negb withinX && negb withinY then ret [pill]
  else if withinX && (leftWidth >=? MIN_SPLIT_SIZE) && (rightWidth >=? MIN_SPLIT_SIZE)
  then
    if withinY && (topHeight >=? MIN_SPLIT_SIZE) && (bottomHeight >=? MIN_SPLIT_SIZE)
    then
      i1 <- generateId ;; i2 <- generateId ;;
      i3 <- generateId ;; i4 <- generateId ;;
      ret [ mkPill i1 (x pill) (y pill) leftWidth topHeight (color pill);
            mkPill i2 splitX (y pill) rightWidth topHeight (color pill);
            mkPill i3 (x pill) splitY leftWidth bottomHeight (color pill);
            mkPill i4 splitX splitY rightWidth bottomHeight (color pill) ]
    else
      i1 <- generateId ;; i2 <- generateId ;;
      ret [ mkPill i1 (x pill) (y pill) leftWidth (h pill) (color pill);
            mkPill i2 splitX (y pill) rightWidth (h pill) (color pill) ]
  else if withinY && (topHeight >=? MIN_SPLIT_SIZE) && (bottomHeight >=? MIN_SPLIT_SIZE)
  then
    i1 <- generateId ;; i2 <- generateId ;;
    ret [ mkPill i1 (x pill) (y pill) (w pill) topHeight (color pill);
          mkPill i2 (x pill) splitY (w pill) bottomHeight (color pill) ]
  else
    (* Move pill aside if not splittable *)
    let offsetX :=
      if withinX
      then (if x pill + w pill / 2 <? splitX then splitX - w pill - 2 else splitX + 2)
      else x pill in
    let offsetY :=
      if withinY
      then (if y pill + h pill / 2 <? splitY then splitY - h pill - 2 else splitY + 2)
      else y pill in
    ret [ mkPill (id pill) offsetX offsetY (w pill) (h pill) (color pill) ].

Definition splitPillsAt (splitX splitY : Q) (prev : list Pill) : M (list Pill) :=
  flatMapM (splitPill splitX splitY) prev.

(** [e.target.dataset.shapeId] is [target]; [if (pillId)] is false on the
    empty string too.  [pills.find(...)!] is asserted to succeed: when it
    does not, the handler has no next state. *)
Definition handleMouseDown (containerRef : option Container) (now : Z)
    (target : option string) (e : MouseEvent) (s : State) : option State :=
  let p := getRelativePosition containerRef e in
  let pillId := match target with Some t => t | None => EmptyString end in
  let click := mkClick (px p) (py p) now pillId in
  if String.eqb pillId EmptyString
  then Some (mkState (pills s) (cursor s)
               (Some (mkDraw (px p) (py p) (px p) (py p))) (dragState s) click)
  else
    match find (fun pill => String.eqb (id pill) pillId) (pills s) with
    | Some targetPill =>
        Some (mkState
                (filter (fun q => negb (String.eqb (id q) pillId)) (pills s)
                   ++ [targetPill])
                (cursor s) (drawState s)
                (Some (mkDrag pillId (px p - x targetPill) (py p - y targetPill)))
                click)
    | None => None
    end.

Definition handleMouseMove (containerRef : option Container) (e : MouseEvent)
    (s : State) : State :=
  let p := getRelativePosition containerRef e in
  let draw' :=
    match drawState s with
    | Some d => Some (mkDraw (sx d) (sy d) (px p) (py p))
    | None => None
    end in
  let pills' :=
    match dragState s with
    | Some g =>
        map (fun pill =>
               if String.eqb (id pill) (drag_id g)
               then mkPill (id pill) (px p - dx g) (py p - dy g)
                      (w pill) (h pill) (color pill)
               else pill)
            (pills s)
    | None => pills s
    end in
  mkState pills' p draw' (dragState s) (clickRef s).

(** The draw branch of [handleMouseUp]: the updater queued by [setPills]. *)
Definition commitDraw (d : DrawState) (prev : list Pill) : M (list Pill) :=
  let drawX := Qmin (sx d) (ex d) in
  let drawY := Qmin (sy d) (ey d) in
  let drawW := Qabs (ex d - sx d) in
  let drawH := Qabs (ey d - sy d) in
  if (drawW >=? MIN_DRAW_SIZE) && (drawH >=? MIN_DRAW_SIZE)
  then
    i <- generateId ;; c <- getRandomColor ;;
    ret (prev ++ [ mkPill i drawX drawY drawW drawH c ])
  else ret prev.

Definition isClick (dist_lt_4 : bool) (duration : Z) : bool :=
  dist_lt_4 && (duration <? 300)%Z.

Definition handleMouseUp (containerRef : option Container) (now : Z)
    (e : MouseEvent) (s : State) : M State :=
  let p := getRelativePosition containerRef e in
  let near := hypot_ltb (px p - click_x (clickRef s)) (py p - click_y (clickRef s)) 4 in
  let duration := (now - click_time (clickRef s))%Z in
  pills1 <- match drawState s with
            | Some d => commitDraw d (pills s)   (* then setDrawState(null) *)
            | None => ret (pills s)
            end ;;
  match dragState s with
  | Some _ =>
      (* setDragState(null); split on a click; return *)
      pills2 <- (if isClick near duration
                 then splitPillsAt (px p) (py p) pills1
                 else ret pills1) ;;
      ret (mkState pills2 (cursor s) None None (clickRef s))
  | None =>
      pills2 <- (if isClick near duration
                 then splitPillsAt (px p) (py p) pills1
                 else ret pills1) ;;
      ret (mkState pills2 (cursor s) None None (clickRef s))
  end.

(** *** Vocabulary of the statements about [splitPillsAt] *)

(** The split coordinate falls strictly inside the pill's extent. *)
Definition crossesX (splitX : Q) (p : Pill) : Prop :=
  x p < splitX /\ splitX < x p + w p.
Definition crossesY (splitY : Q) (p : Pill) : Prop :=
  y p < splitY /\ splitY < y p + h p.

(** Both extents the cut would leave reach the minimum splittable size. *)
Definition splittableX (splitX : Q) (p : Pill) : Prop :=
  MIN_SPLIT_SIZE <= splitX - x p /\ MIN_SPLIT_SIZE <= x p + w p - splitX.
Definition splittableY (splitY : Q) (p : Pill) : Prop :=
  MIN_SPLIT_SIZE <= splitY - y p /\ MIN_SPLIT_SIZE <= y p + h p - splitY.

(** The output holds the two sides of a cut of [p] along the line. *)
Definition cutAtX (splitX : Q) (p : Pill) (out : list Pill) : Prop :=
  exists a b, In a out /\ In b out /\
    x a = x p /\ w a = splitX - x p /\
    x b = splitX /\ w b = x p + w p - splitX.
Definition cutAtY (splitY : Q) (p : Pill) (out : list Pill) : Prop :=
  exists a b, In a out /\ In b out /\
    y a = y p /\ h a = splitY - y p /\
    y b = splitY /\ h b = y p + h p - splitY.

(** The position the last branch of [splitPillsAt] gives, on an axis it
    crosses, to a pill at [pos] of the given [extent]. *)
Definition asideOf (pos extent split : Q) : Q :=
  if pos + extent / 2 <? split then split - extent - 2 else split + 2.

(** The ids [generateId()] hands out between two states of the random
    source. *)
Definition drawnBetween (r r' : Rand) (i : string) : Prop :=
  exists k : nat, (used r <= k < used r')%nat /\ i = ids r k.

Definition geom (p : Pill) : Q * Q * Q * Q := (x p, y p, w p, h p).

End Flat.

(** ** The corner-rounding component *)

Module Corner.

Record BorderRadius : Type := mkRadius {
  topLeft : bool;
  topRight : bool;
  bottomLeft : bool;
  bottomRight : bool
}.

Record PillPart : Type := mkPart {
  id : string;
  x : Q;                       (* relative to container *)
  y : Q;
  width : Q;
  height : Q;
  color : string;
  borderRadius : BorderRadius;
  parentId : option string
}.

Definition MIN_PILL_SIZE : Q := 40.
Definition MIN_PART_SIZE : Q := 20.
Definition BORDER_RADIUS_SIZE : Q := 20.

Inductive SplitLine : Type := vertical | horizontal.

Record DrawingRef : Type := mkDrawing {
  startX : Q; startY : Q; drawing : bool
}.

Record DragRef : Type := mkDragRef {
  pillId : string; offsetX : Q; offsetY : Q; dragging : bool
}.

Record State : Type := mkState {
  pills : list PillPart;
  drawingRef : option DrawingRef;
  cursor : option Point;
  dragRef : option DragRef
}.

(** The template string [`hsl(${hue}, 70%, 80%)`] with
    [hue = Math.floor(Math.random() * 360)]. *)
Definition randomColor : M string :=
  u <- Math_random ;;
  let hue := Qfloor (u * 360) in
  ret ("hsl(" ++ NilZero.string_of_int (Z.to_int hue) ++ ", 70%, 80%)")%string.

Definition allRounded : BorderRadius := mkRadius true true true true.

(** The preview pill, whose id is the literal ["drawing"]. *)
Definition drawingPill (left top newWidth newHeight : Q) : PillPart :=
  mkPart "drawing" left top newWidth newHeight "rgba(0,0,0,0.2)"
         allRounded None.

Definition isDrawing (p : PillPart) : bool := String.eqb (id p) "drawing".

Definition splitBorderRadius (part : PillPart) (splitLine : SplitLine)
  : BorderRadius * BorderRadius :=
  match splitLine with
  | vertical =>
      (* vertical split creates left and right parts *)
      ( mkRadius (topLeft (borderRadius part)) false
                 (bottomLeft (borderRadius part)) false,
        mkRadius false (topRight (borderRadius part))
                 false (bottomRight (borderRadius part)) )
  | horizontal =>
      (* horizontal split creates top and bottom parts *)
      ( mkRadius (topLeft (borderRadius part)) (topRight (borderRadius part))
                 false false,
        mkRadius false false
                 (bottomLeft (borderRadius part)) (bottomRight (borderRadius part)) )
  end.

(** Returns a list with 1 part (no split) or 2 parts. *)
Definition splitPillPart (part : PillPart) (splitLine : SplitLine) (splitAt : Q)
  : M (list PillPart) :=
  match splitLine with
  | vertical =>
      if (width part <? 2 * MIN_PART_SIZE)
         || (splitAt <=? x part + MIN_PART_SIZE)
         || (splitAt >=? x part + width part - MIN_PART_SIZE)
      then ret [part]
      else
        let leftWidth := splitAt - x part in
        let rightWidth := width part - leftWidth in
        let (leftRadius, rightRadius) := splitBorderRadius part vertical in
        i1 <- generateId ;; i2 <- generateId ;;
        ret [ mkPart i1 (x part) (y part) leftWidth (height part)
                     (color part) leftRadius (parentId part);
              mkPart i2 splitAt (y part) rightWidth (height part)
                     (color part) rightRadius (parentId part) ]
  | horizontal =>
      if (height part <? 2 * MIN_PART_SIZE)
         || (splitAt <=? y part + MIN_PART_SIZE)
         || (splitAt >=? y part + height part - MIN_PART_SIZE)
      then ret [part]
      else
        let topHeight := splitAt - y part in
        let bottomHeight := height part - topHeight in
        let (topRadius, bottomRadius) := splitBorderRadius part horizontal in
        i1 <- generateId ;; i2 <- generateId ;;
        ret [ mkPart i1 (x part) (y part) (width part) topHeight
                     (color part) topRadius (parentId part);
              mkPart i2 (x part) splitAt (width part) bottomHeight
                     (color part) bottomRadius (parentId part) ]
  end.

(** [containerRef.current?.clientWidth ?? 1000] and the same for the height. *)
Definition containerWidth (containerRef : option Container) : Q :=
  match containerRef with Some c => clientWidth c | None => 1000 end.

Definition containerHeight (containerRef : option Container) : Q :=
  match containerRef with Some c => clientHeight c | None => 1000 end.

Definition movePartAside (containerRef : option Container)
    (part : PillPart) (splitLine : SplitLine) (splitAt : Q) : PillPart :=
  match splitLine with
  | vertical =>
      let center := x part + width part / 2 in
      if center <? splitAt
      then
        let newX := Qmin (x part) (splitAt - width part) in
        mkPart (id part) (Qmax 0 newX) (y part) (width part) (height part)
               (color part) (borderRadius part) (parentId part)
      else
        mkPart (id part)
               (Qmin splitAt (containerWidth containerRef - width part))
               (y part) (width part) (height part)
               (color part) (borderRadius part) (parentId part)
  | horizontal =>
      let center := y part + height part / 2 in
      if center <? splitAt
      then
        let newY := Qmin (y part) (splitAt - height part) in
        mkPart (id part) (x part) (Qmax 0 newY) (width part) (height part)
               (color part) (borderRadius part) (parentId part)
      else
        mkPart (id part) (x part)
               (Qmin splitAt (containerHeight containerRef - height part))
               (width part) (height part)
               (color part) (borderRadius part) (parentId part)
  end.

(** One turn of the loop of [onSingleClick]: the parts pushed onto
    [newPills] for [pill], and whether [changed] is set. *)
Definition clickPill (containerRef : option Container) (splitX splitY : Q)
    (pill : PillPart) : M (list PillPart * bool) :=
  if isDrawing pill then ret ([pill], false)
  else
    let intersectsVertically :=
      (x pill <? splitX) && (x pill + width pill >? splitX) in
    let intersectsHorizontally :=
      (y pill <? splitY) && (y pill + height pill >? splitY) in
    if intersectsVertically && intersectsHorizontally then
      verticalSplits <- splitPillPart pill vertical splitX ;;
      if Nat.eqb (List.length verticalSplits) 1
      then ret ([movePartAside containerRef pill vertical splitX], true)
      else
        out <- flatMapM
                 (fun partV =>
                    horizontalSplits <- splitPillPart partV horizontal splitY ;;
                    if Nat.eqb (List.length horizontalSplits) 1
                    then ret [movePartAside containerRef partV horizontal splitY]
                    else ret horizontalSplits)
                 verticalSplits ;;
        ret (out, true)
    else if intersectsVertically then
      verticalSplits <- splitPillPart pill vertical splitX ;;
      if Nat.eqb (List.length verticalSplits) 1
      then ret ([movePartAside containerRef pill vertical splitX], true)
      else ret (verticalSplits, true)
    else if intersectsHorizontally then
      horizontalSplits <- splitPillPart pill horizontal splitY ;;
      if Nat.eqb (List.length horizontalSplits) 1
      then ret ([movePartAside containerRef pill horizontal splitY], true)
      else ret (horizontalSplits, true)
    else ret ([pill], false).

(** The loop [for (const pill of pills)] with its two accumulators. *)
Fixpoint clickLoop (containerRef : option Container) (splitX splitY : Q)
    (todo : list PillPart) (newPills : list PillPart) (changed : bool)
  : M (list PillPart * bool) :=
  match todo with
  | [] => ret (newPills, changed)
  | pill :: rest =>
      res <- clickPill containerRef splitX splitY pill ;;
      clickLoop containerRef splitX splitY rest
                (newPills ++ fst res) (changed || snd res)
  end.

Definition onSingleClick (containerRef : option Container) (s : State) : M State :=
  if match drawingRef s with Some d => drawing d | None => false end then ret s
  else if match dragRef s with Some g => dragging g | None => false end then ret s
  else
    match cursor s with
    | None => ret s
    | Some c =>
        res <- clickLoop containerRef (px c) (py c) (pills s) [] false ;;
        if snd res
        then ret (mkState (fst res) (drawingRef s) (cursor s) (dragRef s))
        else ret s
    end.

(** [pills.findIndex(f)], [None] standing for [-1]. *)
Fixpoint findIndex {A : Type} (f : A -> bool) (l : list A) : option nat :=
  match l with
  | [] => None
  | a :: l' => if f a then Some O else option_map S (findIndex f l')
  end.

(** [updated[i] = v] on a copy of the list, for an index in range. *)
Fixpoint updateAt {A : Type} (l : list A) (i : nat) (v : A) : list A :=
  match l, i with
  | [], _ => []
  | _ :: l', O => v :: l'
  | a :: l', S j => a :: updateAt l' j v
  end.

Definition onMouseMove (containerRef : option Container) (e : MouseEvent)
    (s : State) : State :=
  match containerRef with
  | None => s
  | Some c =>
      let mx := clientX e - rect_left c in
      let my := clientY e - rect_top c in
      let drawn :=
        match drawingRef s with
        | Some d =>
            if drawing d then
              let newWidth := Qmax (Qabs (mx - startX d)) MIN_PILL_SIZE in
              let newHeight := Qmax (Qabs (my - startY d)) MIN_PILL_SIZE in
              let left := Qmin mx (startX d) in
              let top := Qmin my (startY d) in
              filter (fun p => negb (isDrawing p)) (pills s)
                ++ [drawingPill left top newWidth newHeight]
            else pills s
        | None => pills s
        end in
      let dragged :=
        match dragRef s with
        | Some g =>
            if dragging g then
              match findIndex (fun p => String.eqb (id p) (pillId g)) (pills s) with
              | None => drawn
              | Some pillIndex =>
                  match nth_error (pills s) pillIndex with
                  | None => drawn
                  | Some pill =>
                      let newX := mx - offsetX g in
                      let newY := my - offsetY g in
                      let rectWidth := clientWidth c in
                      let rectHeight := clientHeight c in
                      let newX := Qmax 0 (Qmin newX (rectWidth - width pill)) in
                      let newY := Qmax 0 (Qmin newY (rectHeight - height pill)) in
                      updateAt (pills s) pillIndex
                        (mkPart (id pill) newX newY (width pill) (height pill)
                                (color pill) (borderRadius pill) (parentId pill))
                  end
              end
            else drawn
        | None => drawn
        end in
      mkState dragged (drawingRef s) (Some (mkPoint mx my)) (dragRef s)
  end.

(** [target] is [e.target.dataset.pillId]. *)
Definition onMouseDown (containerRef : option Container)
    (target : option string) (e : MouseEvent) (s : State) : State :=
  match target with
  | Some (String _ _) => s
  | _ =>
      match containerRef with
      | None => s
      | Some c =>
          let mx := clientX e - rect_left c in
          let my := clientY e - rect_top c in
          mkState (pills s ++ [drawingPill mx my MIN_PILL_SIZE MIN_PILL_SIZE])
                  (Some (mkDrawing mx my true)) (cursor s) (dragRef s)
      end
  end.

Definition onMouseUp (s : State) : M State :=
  match drawingRef s with
  | Some d =>
      if drawing d then
        match find isDrawing (pills s) with
        | Some pill =>
            if (width pill >=? MIN_PILL_SIZE) && (height pill >=? MIN_PILL_SIZE)
            then
              i <- generateId ;; c <- randomColor ;;
              let newPill :=
                mkPart i (x pill) (y pill) (width pill) (height pill) c
                       allRounded (parentId pill) in
              ret (mkState
                     (filter (fun p => negb (isDrawing p)) (pills s) ++ [newPill])
                     None (cursor s) (dragRef s))
            else
              (* Too small, just remove drawing pill *)
              ret (mkState (filter (fun p => negb (isDrawing p)) (pills s))
                           None (cursor s) (dragRef s))
        | None => ret (mkState (pills s) None (cursor s) (dragRef s))
        end
      else ret s
  | None => ret s
  end.

Definition onDragStart (containerRef : option Container) (e : MouseEvent)
    (pid : string) (pillX pillY : Q) (s : State) : State :=
  match containerRef with
  | None => s
  | Some c =>
      mkState (pills s) (drawingRef s) (cursor s)
              (Some (mkDragRef pid (clientX e - rect_left c - pillX)
                               (clientY e - rect_top c - pillY) true))
  end.

Definition onDragEnd (s : State) : State :=
  mkState (pills s) (drawingRef s) (cursor s) None.

(** *** Vocabulary of the statements about [onSingleClick] *)

Definition crossesX (splitX : Q) (p : PillPart) : Prop :=
  x p < splitX /\ splitX < x p + width p.
Definition crossesY (splitY : Q) (p : PillPart) : Prop :=
  y p < splitY /\ splitY < y p + height p.

(** Both extents the cut would leave reach the minimum part size. *)
Definition splittableX (splitX : Q) (p : PillPart) : Prop :=
  MIN_PART_SIZE <= splitX - x p /\ MIN_PART_SIZE <= x p + width p - splitX.
Definition splittableY (splitY : Q) (p : PillPart) : Prop :=
  MIN_PART_SIZE <= splitY - y p /\ MIN_PART_SIZE <= y p + height p - splitY.

(** Both extents the cut would leave exceed the minimum part size: the
    cut passes the guard of [splitPillPart]. *)
Definition passesX (splitX : Q) (p : PillPart) : Prop :=
  MIN_PART_SIZE < splitX - x p /\ MIN_PART_SIZE < x p + width p - splitX.
Definition passesY (splitY : Q) (p : PillPart) : Prop :=
  MIN_PART_SIZE < splitY - y p /\ MIN_PART_SIZE < y p + height p - splitY.

(** The two parts [splitPillPart] builds for a cut at [splitAt], given
    the ids drawn for them. *)
Definition leftOf (i : string) (part : PillPart) (splitAt : Q) : PillPart :=
  mkPart i (x part) (y part) (splitAt - x part) (height part) (color part)
         (fst (splitBorderRadius part vertical)) (parentId part).
Definition rightOf (i : string) (part : PillPart) (splitAt : Q) : PillPart :=
  mkPart i splitAt (y part) (width part - (splitAt - x part)) (height part)
         (color part) (snd (splitBorderRadius part vertical)) (parentId part).
Definition topOf (i : string) (part : PillPart) (splitAt : Q) : PillPart :=
  mkPart i (x part) (y part) (width part) (splitAt - y part) (color part)
         (fst (splitBorderRadius part horizontal)) (parentId part).
Definition bottomOf (i : string) (part : PillPart) (splitAt : Q) : PillPart :=
  mkPart i (x part) splitAt (width part) (height part - (splitAt - y part))
         (color part) (snd (splitBorderRadius part horizontal)) (parentId part).

Definition drawnBetween (r r' : Rand) (i : string) : Prop :=
  exists k : nat, (used r <= k < used r')%nat /\ i = ids r k.


Definition geom (p : PillPart) : Q * Q * Q * Q := (x p, y p, width p, height p).

End Corner.

(** ** The window manager

    The first component of the file that also holds the corner-rounding
    pill splitter: [generateRandomColor], [generateRandomPosition], the
    drag handlers of a [Window] and [handleAddWindow] and
    [handleRemoveWindow] of [WindowManager].  [window.innerWidth] and
    [window.innerHeight] are read from a [Viewport]. *)

Module WindowManager.

Record Position : Type := mkPosition { x : Q; y : Q }.
Record Size : Type := mkSize { width : Q; height : Q }.

Record WindowData : Type := mkWindow {
  id : string;
  color : string;
  position : Position;
  size : Size;
  snapped : unit                (* always [null] *)
}.

Record Viewport : Type := mkViewport { innerWidth : Q; innerHeight : Q }.

Definition colors : list string :=
  ["#FF6B6B"; "#6BCB77"; "#4D96FF"; "#FFD93D"; "#FF6F91"; "#6A4C93"]%string.

(** [colors[Math.floor(Math.random() * colors.length)]] *)
Definition generateRandomColor : M string :=
  u <- Math_random ;;
  ret (nth (Z.to_nat (Qfloor (u * inject_Z (Z.of_nat (List.length colors)))))
           colors "undefined"%string).

Definition generateRandomPosition (v : Viewport) : M Position :=
  ux <- Math_random ;;
  uy <- Math_random ;;
  ret (mkPosition (inject_Z (Qfloor (ux * (innerWidth v - 300))))
                  (inject_Z (Qfloor (uy * (innerHeight v - 200))))).

(** The state of one [Window]: [pos], [isDragging], and, between a mouse
    down on its title bar and the next mouse up, the values the listeners
    registered by [handleMouseDown] have captured. *)
Record DragSession : Type := mkSession {
  startX : Q; startY : Q; initX : Q; initY : Q
}.

Record WindowState : Type := mkWindowState {
  isDragging : bool;
  pos : Position;
  session : option DragSession
}.

Definition initialWindow (position : Position) : WindowState :=
  mkWindowState false position None.

(** [onTitleBar] is [e.target === e.currentTarget]. *)
Definition handleMouseDown (onTitleBar : bool) (e : MouseEvent) (w : WindowState)
  : WindowState :=
  if negb onTitleBar then w
  else mkWindowState true (pos w)
         (Some (mkSession (clientX e) (clientY e) (x (pos w)) (y (pos w)))).

Definition handleMouseMove (v : Viewport) (sz : Size) (e : MouseEvent)
    (w : WindowState) : WindowState :=
  match session w with
  | None => w
  | Some d =>
      let dx := clientX e - startX d in
      let dy := clientY e - startY d in
      mkWindowState (isDragging w)
        (mkPosition
           (Qmax 0 (Qmin (innerWidth v - width sz) (initX d + dx)))
           (Qmax 0 (Qmin (innerHeight v - height sz) (initY d + dy))))
        (session w)
  end.

Definition handleMouseUp (w : WindowState) : WindowState :=
  match session w with
  | None => w
  | Some _ => mkWindowState false (pos w) None
  end.

Definition handleAddWindow (v : Viewport) (windows : list WindowData)
  : M (list WindowData) :=
  i <- generateId ;;
  c <- generateRandomColor ;;
  p <- generateRandomPosition v ;;
  ret (windows ++ [mkWindow i c p (mkSize 300 200) tt]).

Definition handleRemoveWindow (i : string) (windows : list WindowData)
  : list WindowData :=
  filter (fun w => negb (String.eqb (id w) i)) windows.

(** The window lies inside the viewport. *)
Definition visible (v : Viewport) (p : Position) (sz : Size) : Prop :=
  0 <= x p /\ x p + width sz <= innerWidth v /\
  0 <= y p /\ y p + height sz <= innerHeight v.

End WindowManager.

(** ** The callback of [splitPillsAt] in double precision

    The same callback with the numbers as binary64 floats, the arithmetic
    the code runs in. *)

Module FlatD.

Local Open Scope float_scope.

Definition MIN_SPLIT_SIZE : float := 20.

Record Pill : Type := mkPill {
  id : string;
  x : float;
  y : float;
  w : float;
  h : float;
  color : string
}.

Definition splitPill (splitX splitY : float) (pill : Pill) : M (list Pill) :=
  let withinX := (x pill <? splitX) && (splitX <? x pill + w pill) in
  let withinY := (y pill <? splitY) && (splitY <? y pill + h pill) in
  let leftWidth := splitX - x pill in
  let rightWidth := x pill + w pill - splitX in
  let topHeight := splitY - y pill in
  let bottomHeight := y pill + h pill - splitY in
  if negb withinX && negb withinY then ret [pill]
  else if withinX && (MIN_SPLIT_SIZE <=? leftWidth) && (MIN_SPLIT_SIZE <=? rightWidth)
  then
    if withinY && (MIN_SPLIT_SIZE <=? topHeight) && (MIN_SPLIT_SIZE <=? bottomHeight)
    then
      i1 <- generateId ;; i2 <- generateId ;;
      i3 <- generateId ;; i4 <- generateId ;;
      ret [ mkPill i1 (x pill) (y pill) leftWidth topHeight (color pill);
            mkPill i2 splitX (y pill) rightWidth topHeight (color pill);
            mkPill i3 (x pill) splitY leftWidth bottomHeight (color pill);
            mkPill i4 splitX splitY rightWidth bottomHeight (color pill) ]
    else
      i1 <- generateId ;; i2 <- generateId ;;
      ret [ mkPill i1 (x pill) (y pill) leftWidth (h pill) (color pill);
            mkPill i2 splitX (y pill) rightWidth (h pill) (color pill) ]
  else if withinY && (MIN_SPLIT_SIZE <=? topHeight) && (MIN_SPLIT_SIZE <=? bottomHeight)
  then
    i1 <- generateId ;; i2 <- generateId ;;
    ret [ mkPill i1 (x pill) (y pill) (w pill) topHeight (color pill);
          mkPill i2 (x pill) splitY (w pill) bottomHeight (color pill) ]
  else
    (* Move pill aside if not splittable *)
    let offsetX :=
      if withinX
      then (if x pill + w pill / 2 <? splitX then splitX - w pill - 2 else splitX + 2)
      else x pill in
    let offsetY :=
      if withinY
      then (if y pill + h pill / 2 <? splitY then splitY - h pill - 2 else splitY + 2)
      else y pill in
    ret [ mkPill (id pill) offsetX offsetY (w pill) (h pill) (color pill) ].


End FlatD.

(** ** Vocabulary of the statements about the stores *)

(** A [Math.random()] result. *)
Definition unitInterval (u : Q) : Prop := 0 <= u /\ u < 1.

(** Neither side of the pill is below the minimum splittable size. *)
Definition Flat_bigEnough (p : Flat.Pill) : Prop :=
  Flat.MIN_SPLIT_SIZE <= Flat.w p /\ Flat.MIN_SPLIT_SIZE <= Flat.h p.

Definition Corner_bigEnough (p : Corner.PillPart) : Prop :=
  Corner.MIN_PART_SIZE <= Corner.width p /\ Corner.MIN_PART_SIZE <= Corner.height p.

(** The cut passes the guard of [splitPillPart], as the guard is written. *)
Definition Corner_guardX (splitAt : Q) (part : Corner.PillPart) : Prop :=
  2 * Corner.MIN_PART_SIZE <= Corner.width part /\
  Corner.x part + Corner.MIN_PART_SIZE < splitAt /\
  splitAt < Corner.x part + Corner.width part - Corner.MIN_PART_SIZE.


(** The part lies within the container. *)
Definition Corner_inContainer (containerRef : option Container)
    (p : Corner.PillPart) : Prop :=
  0 <= Corner.x p /\
  Corner.x p + Corner.width p <= Corner.containerWidth containerRef /\
  0 <= Corner.y p /\
  Corner.y p + Corner.height p <= Corner.containerHeight containerRef.

(** No corner of [q] is rounded that is square on [p]. *)
Definition Corner_noRounder (p q : Corner.PillPart) : Prop :=
  let rp := Corner.borderRadius p in
  let rq := Corner.borderRadius q in
  (Corner.topLeft rq = true -> Corner.topLeft rp = true) /\
  (Corner.topRight rq = true -> Corner.topRight rp = true) /\
  (Corner.bottomLeft rq = true -> Corner.bottomLeft rp = true) /\
  (Corner.bottomRight rq = true -> Corner.bottomRight rp = true).

(** While a draw is in progress the store is the pills there were before
    it, followed by one preview pill of at least the minimum size. *)
Definition drawingOver (base : list Corner.PillPart) (s : Corner.State) : Prop :=
  exists d preview,
    Corner.drawingRef s = Some d /\ Corner.drawing d = true /\
    Corner.dragRef s = None /\
    Corner.pills s = base ++ [preview] /\ Corner.isDrawing preview = true /\
    Corner.MIN_PILL_SIZE <= Corner.width preview /\
    Corner.MIN_PILL_SIZE <= Corner.height preview.

(** ** Sample inputs *)

(** A random source whose [n]-th id is ["id"] followed by [n] in decimal
    and whose every [Math.random()] is one half. *)
Definition sampleRand : Rand :=
  mkRand (fun n => ("id" ++ NilZero.string_of_uint (Nat.to_uint n))%string)
         (fun _ => 1 # 2) 0.

Definition sampleContainer : Container := mkContainer 0 0 1000 800.

Definition sampleFlatPill : Flat.Pill :=
  Flat.mkPill "p" 0 0 100 100 "#60a5fa".

Definition samplePart : Corner.PillPart :=
  Corner.mkPart "p" 0 0 100 100 "hsl(180, 70%, 80%)" Corner.allRounded None.

(** A part just wide enough for two parts of the minimum size. *)
Definition sampleNarrowPart : Corner.PillPart :=
  Corner.mkPart "p" 0 0 40 100 "hsl(180, 70%, 80%)" Corner.allRounded None.

Definition sampleNarrowPill : Flat.Pill :=
  Flat.mkPill "p" 0 0 40 100 "#60a5fa".

(** Pills too thin to be cut on one axis. *)
Definition sampleWidePill : Flat.Pill :=
  Flat.mkPill "p" 0 0 100 25 "#60a5fa".

Definition sampleTallPill : Flat.Pill :=
  Flat.mkPill "p" 0 0 25 100 "#60a5fa".

Definition sampleWidePart : Corner.PillPart :=
  Corner.mkPart "p" 100 100 100 25 "hsl(180, 70%, 80%)" Corner.allRounded None.

(** A flat store with one pill being dragged, grabbed 5 px inside its
    corner, and the pointer event that takes it past the left edge. *)
Definition sampleDragState : Flat.State :=
  Flat.mkState [Flat.mkPill "p" 10 10 50 50 "#60a5fa"] (mkPoint 15 15) None
               (Some (Flat.mkDrag "p" 5 5)) (Flat.mkClick 15 15 0 "p").

Definition sampleLeftEvent : MouseEvent := mkEvent (-45) 20.

(** A flat store in the middle of a draw gesture 30 px wide and 80 px high. *)
Definition sampleSmallDraw : Flat.State :=
  Flat.mkState [sampleFlatPill] (mkPoint 330 380)
               (Some (Flat.mkDraw 300 300 330 380)) None
               (Flat.mkClick 300 300 0 "").

(** A corner store whose pill "p" is being dragged. *)
Definition sampleCornerDrag : Corner.State :=
  Corner.mkState [samplePart] None (Some (mkPoint 50 50))
                 (Some (Corner.mkDragRef "p" 5 5 true)).

(** A random source whose draws are 3/4, 1/4, 1/2, 1/2, ... *)
Definition sampleRand2 : Rand :=
  mkRand (fun n => ("w" ++ NilZero.string_of_uint (Nat.to_uint n))%string)
         (fun n => match n with 1%nat => 3 # 4 | 2%nat => 1 # 4 | _ => 1 # 2 end) 0.

Definition sampleViewport : WindowManager.Viewport :=
  WindowManager.mkViewport 1280 720.

Definition sampleWindows : list WindowManager.WindowData :=
  [ WindowManager.mkWindow "a" "#FF6B6B" (WindowManager.mkPosition 10 10)
                           (WindowManager.mkSize 300 200) tt;
    WindowManager.mkWindow "b" "#6BCB77" (WindowManager.mkPosition 50 60)
                           (WindowManager.mkSize 300 200) tt ].

(** A flat store of two pills, and the same store with a pill drawn over
    empty ground. *)
Definition sampleStore : list Flat.Pill :=
  [ Flat.mkPill "a" 0 0 100 100 "#60a5fa"; Flat.mkPill "b" 200 50 60 25 "#34d399" ].

Definition sampleFlatState : Flat.State :=
  Flat.mkState sampleStore (mkPoint 0 0) None None (Flat.mkClick 0 0 0 "").

Definition sampleCornerStore : list Corner.PillPart :=
  [ samplePart; sampleWidePart ].

Definition sampleCornerState : Corner.State :=
  Corner.mkState sampleCornerStore None (Some (mkPoint 150 110)) None.




(** * Properties *)

(** ** Comparisons *)

Lemma ltb_spec (a b : Q) : reflect (a < b) (a <? b).
Proof.
  unfold Num.ltb. destruct (Qle_bool b a) eqn:E; constructor.
  - apply Qle_bool_iff in E. lra.
  - destruct (Qlt_le_dec a b) as [H | H]; [exact H |].
    apply Qle_bool_iff in H. congruence.
Qed.

Lemma gtb_spec (a b : Q) : reflect (b < a) (a >? b).
Proof. exact (ltb_spec b a). Qed.

Lemma leb_spec (a b : Q) : reflect (a <= b) (a <=? b).
Proof.
  unfold Num.leb. destruct (Qle_bool a b) eqn:E; constructor.
  - now apply Qle_bool_iff.
  - intro H. apply Qle_bool_iff in H. congruence.
Qed.

Lemma geb_spec (a b : Q) : reflect (b <= a) (a >=? b).
Proof. exact (leb_spec b a). Qed.

Lemma ltb_true (a b : Q) : a < b -> (a <? b) = true.
Proof. intro H. destruct (ltb_spec a b); [reflexivity | contradiction]. Qed.

Lemma geb_true (a b : Q) : b <= a -> (a >=? b) = true.
Proof. intro H. destruct (geb_spec a b); [reflexivity | contradiction]. Qed.

Lemma within_spec (a b s : Q) : reflect (a < s /\ s < b) ((a <? s) && (b >? s)).
Proof.
  destruct (ltb_spec a s), (gtb_spec b s); simpl; constructor; tauto.
Qed.

Lemma within_true (a b s : Q) : a < s /\ s < b -> (a <? s) && (b >? s) = true.
Proof. intro H. destruct (within_spec a b s); [reflexivity | contradiction]. Qed.

(** The tests are decidable. *)
Lemma Qlt_dec_and (a b c d : Q) : {a < b /\ c < d} + {~ (a < b /\ c < d)}.
Proof.
  destruct (Qlt_le_dec a b), (Qlt_le_dec c d);
    solve [ left; split; assumption | right; intros [? ?]; lra ].
Qed.

Lemma Qle_dec_and (a b c d : Q) : {a <= b /\ c <= d} + {~ (a <= b /\ c <= d)}.
Proof.
  destruct (Qlt_le_dec b a), (Qlt_le_dec d c);
    solve [ left; split; assumption | right; intros [? ?]; lra ].
Qed.

(** Case analysis on the first number comparison left in the goal. *)
Ltac cmp_step :=
  match goal with
  | |- context [(?a <? ?s) && (?b >? ?s)] => destruct (within_spec a b s)
  | |- context [?a <? ?b] => destruct (ltb_spec a b)
  | |- context [?a >? ?b] => destruct (gtb_spec a b)
  | |- context [?a >=? ?b] => destruct (geb_spec a b)
  | |- context [?a <=? ?b] => destruct (leb_spec a b)
  end.

Ltac cmp_all := repeat (cmp_step; simpl).

(** ** The callback of [splitPillsAt], branch by branch *)

Section FlatBranches.
Import Flat.
Variables (splitX splitY : Q) (pill : Pill) (r : Rand).

Let n := used r.

Lemma Flat_splitPill_pass :
  ~ crossesX splitX pill -> ~ crossesY splitY pill ->
  splitPill splitX splitY pill r = ([pill], r).
Proof.
  unfold crossesX, crossesY, splitPill. intros HX HY.
  cmp_step; [tauto |]. cmp_step; [tauto |]. reflexivity.
Qed.

Lemma Flat_splitPill_quad :
  crossesX splitX pill -> splittableX splitX pill ->
  crossesY splitY pill -> splittableY splitY pill ->
  splitPill splitX splitY pill r =
    ([ mkPill (ids r n) (x pill) (y pill)
              (splitX - x pill) (splitY - y pill) (color pill);
       mkPill (ids r (S n)) splitX (y pill)
              (x pill + w pill - splitX) (splitY - y pill) (color pill);
       mkPill (ids r (S (S n))) (x pill) splitY
              (splitX - x pill) (y pill + h pill - splitY) (color pill);
       mkPill (ids r (S (S (S n)))) splitX splitY
              (x pill + w pill - splitX) (y pill + h pill - splitY) (color pill) ],
     tick (tick (tick (tick r)))).
Proof.
  unfold crossesX, crossesY, splittableX, splittableY, splitPill.
  intros HX HSX HY HSY. cmp_all; try tauto; reflexivity.
Qed.

Lemma Flat_splitPill_vertical :
  crossesX splitX pill -> splittableX splitX pill ->
  ~ (crossesY splitY pill /\ splittableY splitY pill) ->
  splitPill splitX splitY pill r =
    ([ mkPill (ids r n) (x pill) (y pill)
              (splitX - x pill) (h pill) (color pill);
       mkPill (ids r (S n)) splitX (y pill)
              (x pill + w pill - splitX) (h pill) (color pill) ],
     tick (tick r)).
Proof.
  unfold crossesX, crossesY, splittableX, splittableY, splitPill.
  intros HX HSX HY. cmp_all; try tauto; reflexivity.
Qed.

Lemma Flat_splitPill_horizontal :
  ~ (crossesX splitX pill /\ splittableX splitX pill) ->
  crossesY splitY pill -> splittableY splitY pill ->
  splitPill splitX splitY pill r =
    ([ mkPill (ids r n) (x pill) (y pill)
              (w pill) (splitY - y pill) (color pill);
       mkPill (ids r (S n)) (x pill) splitY
              (w pill) (y pill + h pill - splitY) (color pill) ],
     tick (tick r)).
Proof.
  unfold crossesX, crossesY, splittableX, splittableY, splitPill.
  intros HX HY HSY. cmp_all; try tauto; reflexivity.
Qed.

Lemma Flat_splitPill_aside :
  crossesX splitX pill \/ crossesY splitY pill ->
  ~ (crossesX splitX pill /\ splittableX splitX pill) ->
  ~ (crossesY splitY pill /\ splittableY splitY pill) ->
  splitPill splitX splitY pill r =
    ([ mkPill (id pill)
              (if (x pill <? splitX) && (x pill + w pill >? splitX)
               then asideOf (x pill) (w pill) splitX else x pill)
              (if (y pill <? splitY) && (y pill + h pill >? splitY)
               then asideOf (y pill) (h pill) splitY else y pill)
              (w pill) (h pill) (color pill) ], r).
Proof.
  unfold crossesX, crossesY, splittableX, splittableY, splitPill, asideOf.
  intros HC HX HY.
  destruct (within_spec (x pill) (x pill + w pill) splitX);
    destruct (within_spec (y pill) (y pill + h pill) splitY);
    simpl; try tauto; cmp_all; try tauto; reflexivity.
Qed.

End FlatBranches.

(** ** [splitPillPart] and the loop body of [onSingleClick], branch by branch *)

Section CornerBranches.
Import Corner.
Variables (containerRef : option Container) (splitX splitY : Q).
Variables (pill : PillPart) (r : Rand).

Let n := used r.

Lemma Corner_splitPillPart_vertical_cut :
  passesX splitX pill ->
  splitPillPart pill vertical splitX r =
    ([ leftOf (ids r n) pill splitX; rightOf (ids r (S n)) pill splitX ],
     tick (tick r)).
Proof.
  unfold passesX, splitPillPart, MIN_PART_SIZE. intros [H1 H2].
  cmp_all; try lra. reflexivity.
Qed.

Lemma Corner_splitPillPart_vertical_keep :
  ~ passesX splitX pill -> splitPillPart pill vertical splitX r = ([pill], r).
Proof.
  unfold passesX, splitPillPart, MIN_PART_SIZE. intros H.
  cmp_all; try reflexivity. exfalso. apply H. lra.
Qed.

Lemma Corner_splitPillPart_horizontal_cut :
  passesY splitY pill ->
  splitPillPart pill horizontal splitY r =
    ([ topOf (ids r n) pill splitY; bottomOf (ids r (S n)) pill splitY ],
     tick (tick r)).
Proof.
  unfold passesY, splitPillPart, MIN_PART_SIZE. intros [H1 H2].
  cmp_all; try lra. reflexivity.
Qed.

Lemma Corner_splitPillPart_horizontal_keep :
  ~ passesY splitY pill -> splitPillPart pill horizontal splitY r = ([pill], r).
Proof.
  unfold passesY, splitPillPart, MIN_PART_SIZE. intros H.
  cmp_all; try reflexivity. exfalso. apply H. lra.
Qed.

End CornerBranches.

Section CornerClick.
Import Corner.
Variables (containerRef : option Container) (splitX splitY : Q).
Variables (pill : PillPart) (r : Rand).

Let n := used r.

Lemma Corner_clickPill_drawing :
  isDrawing pill = true ->
  clickPill containerRef splitX splitY pill r = (([pill], false), r).
Proof. intro HD. unfold clickPill. rewrite HD. reflexivity. Qed.

Lemma Corner_clickPill_pass :
  ~ crossesX splitX pill -> ~ crossesY splitY pill ->
  clickPill containerRef splitX splitY pill r = (([pill], false), r).
Proof.
  intros HX HY. unfold clickPill, crossesX, crossesY in *.
  destruct (isDrawing pill); [reflexivity |].
  cmp_step; [tauto |]. cmp_step; [tauto |]. reflexivity.
Qed.

Hypothesis not_drawing : isDrawing pill = false.

Lemma Corner_clickPill_aside_vertical :
  crossesX splitX pill -> ~ passesX splitX pill ->
  clickPill containerRef splitX splitY pill r =
    (([ movePartAside containerRef pill vertical splitX ], true), r).
Proof.
  intros HX HP. unfold clickPill, crossesX, crossesY in *. rewrite not_drawing.
  cmp_step; [| tauto]. cmp_step; cbn [andb]; unfold bind;
    rewrite (Corner_splitPillPart_vertical_keep _ _ _ HP); reflexivity.
Qed.

Lemma Corner_clickPill_aside_horizontal :
  ~ crossesX splitX pill -> crossesY splitY pill -> ~ passesY splitY pill ->
  clickPill containerRef splitX splitY pill r =
    (([ movePartAside containerRef pill horizontal splitY ], true), r).
Proof.
  intros HX HY HP. unfold clickPill, crossesX, crossesY in *. rewrite not_drawing.
  cmp_step; [tauto |]. cmp_step; [| tauto]. cbn [andb]. unfold bind.
  rewrite (Corner_splitPillPart_horizontal_keep _ _ _ HP). reflexivity.
Qed.

Lemma Corner_clickPill_vertical :
  crossesX splitX pill -> passesX splitX pill -> ~ crossesY splitY pill ->
  clickPill containerRef splitX splitY pill r =
    (([ leftOf (ids r n) pill splitX; rightOf (ids r (S n)) pill splitX ], true),
     tick (tick r)).
Proof.
  intros HX HP HY. unfold clickPill, crossesX, crossesY in *. rewrite not_drawing.
  cmp_step; [| tauto]. cmp_step; [tauto |]. cbn [andb]. unfold bind.
  rewrite (Corner_splitPillPart_vertical_cut _ _ _ HP). reflexivity.
Qed.

Lemma Corner_clickPill_horizontal :
  ~ crossesX splitX pill -> crossesY splitY pill -> passesY splitY pill ->
  clickPill containerRef splitX splitY pill r =
    (([ topOf (ids r n) pill splitY; bottomOf (ids r (S n)) pill splitY ], true),
     tick (tick r)).
Proof.
  intros HX HY HP. unfold clickPill, crossesX, crossesY in *. rewrite not_drawing.
  cmp_step; [tauto |]. cmp_step; [| tauto]. cbn [andb]. unfold bind.
  rewrite (Corner_splitPillPart_horizontal_cut _ _ _ HP). reflexivity.
Qed.

Lemma Corner_clickPill_quad :
  crossesX splitX pill -> passesX splitX pill ->
  crossesY splitY pill -> passesY splitY pill ->
  clickPill containerRef splitX splitY pill r =
    (([ topOf (ids r (2 + n)) (leftOf (ids r n) pill splitX) splitY;
        bottomOf (ids r (3 + n)) (leftOf (ids r n) pill splitX) splitY;
        topOf (ids r (4 + n)) (rightOf (ids r (S n)) pill splitX) splitY;
        bottomOf (ids r (5 + n)) (rightOf (ids r (S n)) pill splitX) splitY ],
      true),
     tick (tick (tick (tick (tick (tick r)))))).
Proof.
  intros HX HPX HY HPY. unfold clickPill, crossesX, crossesY in *.
  rewrite not_drawing.
  cmp_step; [| tauto]. cmp_step; [| tauto]. cbn [andb]. unfold bind.
  rewrite (Corner_splitPillPart_vertical_cut _ _ _ HPX).
  cbn [flatMapM List.length Nat.eqb]. unfold bind.
  rewrite Corner_splitPillPart_horizontal_cut by exact HPY.
  cbn [List.length Nat.eqb]. unfold ret at 1.
  rewrite Corner_splitPillPart_horizontal_cut by exact HPY.
  reflexivity.
Qed.

Lemma Corner_clickPill_vertical_then_aside :
  crossesX splitX pill -> passesX splitX pill ->
  crossesY splitY pill -> ~ passesY splitY pill ->
  clickPill containerRef splitX splitY pill r =
    (([ movePartAside containerRef (leftOf (ids r n) pill splitX) horizontal splitY;
        movePartAside containerRef (rightOf (ids r (S n)) pill splitX) horizontal splitY ],
      true),
     tick (tick r)).
Proof.
  intros HX HPX HY HPY. unfold clickPill, crossesX, crossesY in *.
  rewrite not_drawing.
  cmp_step; [| tauto]. cmp_step; [| tauto]. cbn [andb]. unfold bind.
  rewrite (Corner_splitPillPart_vertical_cut _ _ _ HPX).
  cbn [flatMapM List.length Nat.eqb]. unfold bind.
  rewrite Corner_splitPillPart_horizontal_keep by exact HPY.
  cbn [List.length Nat.eqb]. unfold ret at 1.
  rewrite Corner_splitPillPart_horizontal_keep by exact HPY.
  reflexivity.
Qed.

End CornerClick.

(** The branch the loop body takes for a pill that is not the preview,
    by the four tests that decide it. *)
Ltac click_cases splitX splitY p :=
  destruct (Qlt_dec_and (Corner.x p) splitX splitX (Corner.x p + Corner.width p))
    as [HX | HX];
  destruct (Qlt_dec_and (Corner.y p) splitY splitY (Corner.y p + Corner.height p))
    as [HY | HY];
  destruct (Qlt_dec_and Corner.MIN_PART_SIZE (splitX - Corner.x p)
              Corner.MIN_PART_SIZE (Corner.x p + Corner.width p - splitX))
    as [PX | PX];
  destruct (Qlt_dec_and Corner.MIN_PART_SIZE (splitY - Corner.y p)
              Corner.MIN_PART_SIZE (Corner.y p + Corner.height p - splitY))
    as [PY | PY];
  first
    [ rewrite Corner_clickPill_pass by assumption
    | rewrite Corner_clickPill_aside_vertical by assumption
    | rewrite Corner_clickPill_aside_horizontal by assumption
    | rewrite Corner_clickPill_quad by assumption
    | rewrite Corner_clickPill_vertical_then_aside by assumption
    | rewrite Corner_clickPill_vertical by assumption
    | rewrite Corner_clickPill_horizontal by assumption ].

(** ** Shapes the crosshair does not cross *)

Lemma flatMapM_keeps {A : Type} (f : A -> M (list A)) (a : A) :
  (forall r, f a r = ([a], r)) ->
  forall l r, In a l -> In a (fst (flatMapM f l r)).
Proof.
  intros Hf l. induction l as [| b l IH]; intros r Hin; [contradiction |].
  cbn [flatMapM]. unfold bind, ret.
  destruct (f b r) as [bs r1] eqn:Eb.
  destruct (flatMapM f l r1) as [rest r2] eqn:El. cbn [fst].
  apply in_or_app. destruct Hin as [-> | Hin].
  - left. rewrite Hf in Eb. injection Eb as <- _. now left.
  - right. specialize (IH r1 Hin). now rewrite El in IH.
Qed.

Lemma Corner_clickLoop_keeps cref sx sy (p : Corner.PillPart) :
  (forall r, Corner.clickPill cref sx sy p r = (([p], false), r)) ->
  forall todo acc changed r,
    In p acc \/ In p todo ->
    In p (fst (fst (Corner.clickLoop cref sx sy todo acc changed r))).
Proof.
  intros Hp todo. induction todo as [| q todo IH]; intros acc changed r Hin.
  - cbn. destruct Hin as [H | []]. exact H.
  - cbn [Corner.clickLoop]. unfold bind.
    destruct (Corner.clickPill cref sx sy q r) as [res r1] eqn:Eq.
    apply IH. destruct Hin as [H | [-> | H]].
    + left. apply in_or_app. now left.
    + left. apply in_or_app. right. rewrite Hp in Eq. injection Eq as <- _.
      now left.
    + now right.
Qed.

(** C8: a shape whose extent the split point is strictly inside on neither
    axis (a point on the boundary included) comes out of the split field
    for field unchanged, in both components: the callback of [splitPillsAt]
    and the loop body of [onSingleClick] return the shape itself, drawing no
    id, and the shape is still in the store after the whole operation. *)
Theorem C8_uncrossed_shape_unchanged :
  (forall (splitX splitY : Q) (p : Flat.Pill) (r : Rand),
      ~ Flat.crossesX splitX p -> ~ Flat.crossesY splitY p ->
      Flat.splitPill splitX splitY p r = ([p], r) /\
      forall store, In p store ->
                    In p (fst (Flat.splitPillsAt splitX splitY store r)))
  /\
  (forall (cref : option Container) (splitX splitY : Q)
          (p : Corner.PillPart) (r : Rand),
      ~ Corner.crossesX splitX p -> ~ Corner.crossesY splitY p ->
      Corner.clickPill cref splitX splitY p r = (([p], false), r) /\
      forall s, In p (Corner.pills s) ->
                Corner.cursor s = Some (mkPoint splitX splitY) ->
                In p (Corner.pills (fst (Corner.onSingleClick cref s r)))).
Proof.
  split.
  - intros splitX splitY p r HX HY. split.
    + now apply Flat_splitPill_pass.
    + intros store Hin. unfold Flat.splitPillsAt. apply flatMapM_keeps.
      * intro r0. now apply Flat_splitPill_pass.
      * exact Hin.
  - intros cref splitX splitY p r HX HY. split.
    + now apply Corner_clickPill_pass.
    + intros s Hin Hc. unfold Corner.onSingleClick.
      destruct (match Corner.drawingRef s with
                | Some d => Corner.drawing d | None => false end); [exact Hin |].
      destruct (match Corner.dragRef s with
                | Some g => Corner.dragging g | None => false end); [exact Hin |].
      rewrite Hc. cbn [px py]. unfold bind, ret.
      destruct (Corner.clickLoop cref splitX splitY (Corner.pills s) [] false r)
        as [res r1] eqn:E.
      destruct (snd res); cbn [fst Corner.pills]; [| exact Hin].
      pose proof (Corner_clickLoop_keeps cref splitX splitY p
                    (fun r0 => Corner_clickPill_pass cref splitX splitY p r0 HX HY)
                    (Corner.pills s) [] false r (or_intror Hin)) as K.
      now rewrite E in K.
Qed.

Lemma C8_uncrossed_shape_unchanged_witness :
  Flat.splitPill 100 250 sampleFlatPill sampleRand = ([sampleFlatPill], sampleRand)
  /\ Corner.clickPill None 100 0 samplePart sampleRand
     = (([samplePart], false), sampleRand).
Proof.
  split.
  - apply (proj1 C8_uncrossed_shape_unchanged 100 250 sampleFlatPill sampleRand).
    + unfold Flat.crossesX; simpl; lra.
    + unfold Flat.crossesY; simpl; lra.
  - apply (proj2 C8_uncrossed_shape_unchanged None 100 0 samplePart sampleRand).
    + unfold Corner.crossesX; simpl; lra.
    + unfold Corner.crossesY; simpl; lra.
Defined.

(** ** Identity of the shapes that are not split *)

(** The id in the goal is one of the (at most six) draws made since [r]. *)
Ltac drawn_id :=
  match goal with
  | |- exists k : nat, (used ?r <= k < _)%nat /\ _ = ids ?r k =>
      first [ exists (used r); split; [lia | reflexivity]
            | exists (S (used r)); split; [lia | reflexivity]
            | exists (S (S (used r))); split; [lia | reflexivity]
            | exists (S (S (S (used r)))); split; [lia | reflexivity]
            | exists (S (S (S (S (used r))))); split; [lia | reflexivity]
            | exists (S (S (S (S (S (used r)))))); split; [lia | reflexivity] ]
  end.

Lemma Flat_splitPill_outcome (splitX splitY : Q) (p : Flat.Pill) (r : Rand) :
  let out := fst (Flat.splitPill splitX splitY p r) in
  let r' := snd (Flat.splitPill splitX splitY p r) in
  (exists q, out = [q] /\ r' = r /\
             Flat.id q = Flat.id p /\ Flat.color q = Flat.color p /\
             Flat.w q = Flat.w p /\ Flat.h q = Flat.h p)
  \/ ((List.length out = 2 \/ List.length out = 4)%nat /\
      Forall (fun q => Flat.drawnBetween r r' (Flat.id q)) out).
Proof.
  unfold Flat.splitPill, Flat.drawnBetween. cbv zeta.
  destruct (within_spec (Flat.x p) (Flat.x p + Flat.w p) splitX);
    destruct (within_spec (Flat.y p) (Flat.y p + Flat.h p) splitY);
    cbn [andb negb]; cmp_all;
    first [ left; eexists; repeat split; reflexivity
          | right; split; [ auto |];
            repeat (apply Forall_cons; [ cbn; drawn_id |]); apply Forall_nil ].
Qed.

Lemma Corner_movePartAside_frame cref (part : Corner.PillPart) line splitAt :
  let q := Corner.movePartAside cref part line splitAt in
  Corner.id q = Corner.id part /\ Corner.color q = Corner.color part /\
  Corner.width q = Corner.width part /\ Corner.height q = Corner.height part /\
  Corner.borderRadius q = Corner.borderRadius part /\
  Corner.parentId q = Corner.parentId part /\
  match line with
  | Corner.vertical => Corner.y q = Corner.y part
  | Corner.horizontal => Corner.x q = Corner.x part
  end.
Proof.
  unfold Corner.movePartAside. destruct line; cmp_all; repeat split.
Qed.

Lemma Corner_movePartAside_id cref (part : Corner.PillPart) line splitAt :
  Corner.id (Corner.movePartAside cref part line splitAt) = Corner.id part.
Proof. apply (Corner_movePartAside_frame cref part line splitAt). Qed.

Lemma Corner_clickPill_outcome cref (splitX splitY : Q)
      (p : Corner.PillPart) (r : Rand) :
  let out := fst (fst (Corner.clickPill cref splitX splitY p r)) in
  let r' := snd (Corner.clickPill cref splitX splitY p r) in
  (exists q, out = [q] /\ r' = r /\
             Corner.id q = Corner.id p /\ Corner.color q = Corner.color p /\
             Corner.width q = Corner.width p /\ Corner.height q = Corner.height p /\
             Corner.borderRadius q = Corner.borderRadius p)
  \/ ((List.length out = 2 \/ List.length out = 4)%nat /\
      Forall (fun q => Corner.drawnBetween r r' (Corner.id q)) out).
Proof.
  cbv zeta.
  destruct (Corner.isDrawing p) eqn:HD.
  { rewrite Corner_clickPill_drawing by exact HD. left. exists p. now repeat split. }
  click_cases splitX splitY p;
  cbn [fst snd];
  first
    [ left; eexists; split; [reflexivity |]; split; [reflexivity |];
      first [ now repeat split
            | pose proof (Corner_movePartAside_frame cref p Corner.vertical splitX) as F;
              cbv zeta in F; intuition congruence
            | pose proof (Corner_movePartAside_frame cref p Corner.horizontal splitY) as F;
              cbv zeta in F; intuition congruence ]
    | right; split; [ cbn; auto |];
      unfold Corner.drawnBetween;
      repeat (apply Forall_cons;
              [ rewrite ?Corner_movePartAside_id; cbn; drawn_id |]);
      apply Forall_nil ].
Qed.

(** C10: a shape the split does not replace by children (the output for
    it is a single shape: passed through, or moved aside) keeps its id,
    colour, width and height, and no id is drawn for it; when the output is
    not a single shape, every output shape carries an id drawn from
    [generateId()] during that split.  Both components. *)
Theorem C10_unsplit_shape_keeps_identity :
  (forall (splitX splitY : Q) (p q : Flat.Pill) (r r' : Rand),
      Flat.splitPill splitX splitY p r = ([q], r') ->
      r' = r /\ Flat.id q = Flat.id p /\ Flat.color q = Flat.color p /\
      Flat.w q = Flat.w p /\ Flat.h q = Flat.h p)
  /\
  (forall (splitX splitY : Q) (p : Flat.Pill) (r r' : Rand) (out : list Flat.Pill),
      Flat.splitPill splitX splitY p r = (out, r') ->
      List.length out <> 1%nat ->
      Forall (fun q => Flat.drawnBetween r r' (Flat.id q)) out)
  /\
  (forall (cref : option Container) (splitX splitY : Q)
          (p q : Corner.PillPart) (changed : bool) (r r' : Rand),
      Corner.clickPill cref splitX splitY p r = (([q], changed), r') ->
      r' = r /\ Corner.id q = Corner.id p /\ Corner.color q = Corner.color p /\
      Corner.width q = Corner.width p /\ Corner.height q = Corner.height p)
  /\
  (forall (cref : option Container) (splitX splitY : Q)
          (p : Corner.PillPart) (changed : bool) (r r' : Rand)
          (out : list Corner.PillPart),
      Corner.clickPill cref splitX splitY p r = ((out, changed), r') ->
      List.length out <> 1%nat ->
      Forall (fun q => Corner.drawnBetween r r' (Corner.id q)) out).
Proof.
  split; [| split; [| split]].
  - intros splitX splitY p q r r' H.
    pose proof (Flat_splitPill_outcome splitX splitY p r) as O.
    cbv zeta in O. rewrite H in O. cbn [fst snd] in O.
    destruct O as [(q0 & E & O) | [[L | L] _]];
      [ injection E as <-; intuition | discriminate L | discriminate L ].
  - intros splitX splitY p r r' out H L.
    pose proof (Flat_splitPill_outcome splitX splitY p r) as O.
    cbv zeta in O. rewrite H in O. cbn [fst snd] in O.
    destruct O as [(q0 & -> & _) | [_ O]]; [now elim L | exact O].
  - intros cref splitX splitY p q changed r r' H.
    pose proof (Corner_clickPill_outcome cref splitX splitY p r) as O.
    cbv zeta in O. rewrite H in O. cbn [fst snd] in O.
    destruct O as [(q0 & E & O) | [[L | L] _]];
      [ injection E as <-; intuition | discriminate L | discriminate L ].
  - intros cref splitX splitY p changed r r' out H L.
    pose proof (Corner_clickPill_outcome cref splitX splitY p r) as O.
    cbv zeta in O. rewrite H in O. cbn [fst snd] in O.
    destruct O as [(q0 & -> & _) | [_ O]]; [now elim L | exact O].
Qed.

Lemma C10_unsplit_shape_keeps_identity_witness :
  Flat.splitPill 10 250 sampleFlatPill sampleRand
    = ([Flat.mkPill "p" 12 0 100 100 "#60a5fa"], sampleRand)
  /\ Flat.id (Flat.mkPill "p" 12 0 100 100 "#60a5fa") = Flat.id sampleFlatPill
  /\ Corner.clickPill (Some sampleContainer) 10 250 samplePart sampleRand
    = (([Corner.mkPart "p" 10 0 100 100 "hsl(180, 70%, 80%)"
                       Corner.allRounded None], true), sampleRand)
  /\ Corner.id (Corner.mkPart "p" 10 0 100 100 "hsl(180, 70%, 80%)"
                              Corner.allRounded None) = Corner.id samplePart.
Proof.
  split; [reflexivity |]. split.
  - apply (proj1 C10_unsplit_shape_keeps_identity 10 250 sampleFlatPill
             (Flat.mkPill "p" 12 0 100 100 "#60a5fa") sampleRand sampleRand).
    reflexivity.
  - split; [reflexivity |].
    apply (proj1 (proj2 (proj2 C10_unsplit_shape_keeps_identity))
             (Some sampleContainer) 10 250 samplePart
             (Corner.mkPart "p" 10 0 100 100 "hsl(180, 70%, 80%)"
                            Corner.allRounded None) true sampleRand sampleRand).
    reflexivity.
Defined.

(** ** The guard of [splitPillPart] *)

Lemma Corner_guardX_passes (splitAt : Q) (p : Corner.PillPart) :
  Corner_guardX splitAt p -> Corner.passesX splitAt p.
Proof.
  unfold Corner_guardX, Corner.passesX, Corner.MIN_PART_SIZE. lra.
Qed.


Lemma Corner_unsplittableX_refused (splitAt : Q) (p : Corner.PillPart) :
  ~ Corner.splittableX splitAt p -> ~ Corner.passesX splitAt p.
Proof.
  unfold Corner.splittableX, Corner.passesX. intros H [H1 H2]. apply H. lra.
Qed.

Lemma Corner_unsplittableY_refused (splitAt : Q) (p : Corner.PillPart) :
  ~ Corner.splittableY splitAt p -> ~ Corner.passesY splitAt p.
Proof.
  unfold Corner.splittableY, Corner.passesY. intros H [H1 H2]. apply H. lra.
Qed.

(** ** The four children of a cut on both axes *)




(** ** The quadrant example *)




(** ** Corner rounding of the children *)




(** ** When an axis is cut *)

(** A number is not equal to one it differs from as a rational. *)
Lemma Qneq_of_lt (a b : Q) : a < b -> a <> b.
Proof. intros H E. rewrite E in H. exact (Qlt_irrefl b H). Qed.

Lemma Flat_asideOf_off_line (pos extent split : Q) :
  0 < extent -> Flat.asideOf pos extent split <> split.
Proof.
  intros He E. unfold Flat.asideOf in E.
  destruct (ltb_spec (pos + extent / 2) split).
  - apply (Qneq_of_lt (split - extent - 2) split); [lra | exact E].
  - symmetry in E. apply (Qneq_of_lt split (split + 2)); [lra | exact E].
Qed.

(** The flat component cuts a crossed axis exactly when both extents the
    cut leaves reach [MIN_SPLIT_SIZE]. *)
Lemma Flat_cut_iff_splittable (splitX splitY : Q) (p : Flat.Pill) (r : Rand) :
  (Flat.crossesX splitX p ->
   (Flat.cutAtX splitX p (fst (Flat.splitPill splitX splitY p r))
    <-> Flat.splittableX splitX p))
  /\
  (Flat.crossesY splitY p ->
   (Flat.cutAtY splitY p (fst (Flat.splitPill splitX splitY p r))
    <-> Flat.splittableY splitY p)).
Proof.
  pose proof (Qle_dec_and Flat.MIN_SPLIT_SIZE (splitX - Flat.x p)
                Flat.MIN_SPLIT_SIZE (Flat.x p + Flat.w p - splitX)) as DX.
  pose proof (Qle_dec_and Flat.MIN_SPLIT_SIZE (splitY - Flat.y p)
                Flat.MIN_SPLIT_SIZE (Flat.y p + Flat.h p - splitY)) as DY.
  pose proof (Qlt_dec_and (Flat.x p) splitX splitX (Flat.x p + Flat.w p)) as CX.
  pose proof (Qlt_dec_and (Flat.y p) splitY splitY (Flat.y p + Flat.h p)) as CY.
  fold (Flat.splittableX splitX p) in DX. fold (Flat.splittableY splitY p) in DY.
  fold (Flat.crossesX splitX p) in CX. fold (Flat.crossesY splitY p) in CY.
  split.
  - intros HX. split.
    + intros (a & b & Ha & Hb & Eax & Eaw & Ebx & Ebw).
      destruct DX as [SX | SX]; [exact SX | exfalso].
      destruct CY as [HY | HY]; [destruct DY as [SY | SY] |].
      * rewrite Flat_splitPill_horizontal in Hb by tauto.
        cbn [fst In] in Hb. destruct HX as [HX1 HX2].
        apply (Qneq_of_lt _ _ HX1).
        destruct Hb as [<- | [<- | []]]; exact Ebx.
      * rewrite Flat_splitPill_aside in Hb by tauto.
        cbn [fst In] in Hb. destruct Hb as [<- | []]. cbn [Flat.x] in Ebx.
        rewrite (within_true _ _ _ HX) in Ebx.
        apply Flat_asideOf_off_line in Ebx; [exact Ebx |].
        destruct HX; lra.
      * rewrite Flat_splitPill_aside in Hb by tauto.
        cbn [fst In] in Hb. destruct Hb as [<- | []]. cbn [Flat.x] in Ebx.
        rewrite (within_true _ _ _ HX) in Ebx.
        apply Flat_asideOf_off_line in Ebx; [exact Ebx |].
        destruct HX; lra.
    + intros SX.
      destruct CY as [HY | HY]; [destruct DY as [SY | SY] |].
      * rewrite Flat_splitPill_quad by assumption. cbn [fst].
        do 2 eexists. split; [left; reflexivity |].
        split; [right; left; reflexivity |]. now repeat split.
      * rewrite Flat_splitPill_vertical by tauto. cbn [fst].
        do 2 eexists. split; [left; reflexivity |].
        split; [right; left; reflexivity |]. now repeat split.
      * rewrite Flat_splitPill_vertical by tauto. cbn [fst].
        do 2 eexists. split; [left; reflexivity |].
        split; [right; left; reflexivity |]. now repeat split.
  - intros HY. split.
    + intros (a & b & Ha & Hb & Eay & Eah & Eby & Ebh).
      destruct DY as [SY | SY]; [exact SY | exfalso].
      destruct CX as [HX | HX]; [destruct DX as [SX | SX] |].
      * rewrite Flat_splitPill_vertical in Hb by tauto.
        cbn [fst In] in Hb. destruct HY as [HY1 HY2].
        apply (Qneq_of_lt _ _ HY1).
        destruct Hb as [<- | [<- | []]]; exact Eby.
      * rewrite Flat_splitPill_aside in Hb by tauto.
        cbn [fst In] in Hb. destruct Hb as [<- | []]. cbn [Flat.y] in Eby.
        rewrite (within_true _ _ _ HY) in Eby.
        apply Flat_asideOf_off_line in Eby; [exact Eby |].
        destruct HY; lra.
      * rewrite Flat_splitPill_aside in Hb by tauto.
        cbn [fst In] in Hb. destruct Hb as [<- | []]. cbn [Flat.y] in Eby.
        rewrite (within_true _ _ _ HY) in Eby.
        apply Flat_asideOf_off_line in Eby; [exact Eby |].
        destruct HY; lra.
    + intros SY.
      destruct CX as [HX | HX]; [destruct DX as [SX | SX] |].
      * rewrite Flat_splitPill_quad by assumption. cbn [fst].
        exists (Flat.mkPill (ids r (used r)) (Flat.x p) (Flat.y p)
                  (splitX - Flat.x p) (splitY - Flat.y p) (Flat.color p)).
        eexists. split; [left; reflexivity |].
        split; [right; right; left; reflexivity |]. now repeat split.
      * rewrite Flat_splitPill_horizontal by tauto. cbn [fst].
        do 2 eexists. split; [left; reflexivity |].
        split; [right; left; reflexivity |]. now repeat split.
      * rewrite Flat_splitPill_horizontal by tauto. cbn [fst].
        do 2 eexists. split; [left; reflexivity |].
        split; [right; left; reflexivity |]. now repeat split.
Qed.

(** A crossing that leaves exactly [MIN_SPLIT_SIZE] on both sides is cut
    by the flat component: into two children when the other axis is not
    cut. *)
Lemma Flat_cut_at_minimum (splitX splitY : Q) (p : Flat.Pill) (r : Rand) :
  Flat.crossesX splitX p ->
  splitX - Flat.x p == Flat.MIN_SPLIT_SIZE ->
  Flat.x p + Flat.w p - splitX == Flat.MIN_SPLIT_SIZE ->
  ~ Flat.crossesY splitY p ->
  Flat.splitPill splitX splitY p r =
    ([ Flat.mkPill (ids r (used r)) (Flat.x p) (Flat.y p)
                   (splitX - Flat.x p) (Flat.h p) (Flat.color p);
       Flat.mkPill (ids r (S (used r))) splitX (Flat.y p)
                   (Flat.x p + Flat.w p - splitX) (Flat.h p) (Flat.color p) ],
     tick (tick r)).
Proof.
  intros HX E1 E2 HY. apply Flat_splitPill_vertical; [exact HX | | tauto].
  unfold Flat.splittableX. lra.
Qed.

(** The guard of [splitPillPart] turns down every cut that would leave a
    part of exactly [MIN_PART_SIZE]. *)
Lemma Corner_refuses_cut_at_minimum (part : Corner.PillPart) (splitAt : Q) (r : Rand) :
  (splitAt - Corner.x part == Corner.MIN_PART_SIZE \/
   Corner.x part + Corner.width part - splitAt == Corner.MIN_PART_SIZE ->
   Corner.splitPillPart part Corner.vertical splitAt r = ([part], r))
  /\
  (splitAt - Corner.y part == Corner.MIN_PART_SIZE \/
   Corner.y part + Corner.height part - splitAt == Corner.MIN_PART_SIZE ->
   Corner.splitPillPart part Corner.horizontal splitAt r = ([part], r)).
Proof.
  split; intro H.
  - apply Corner_splitPillPart_vertical_keep. unfold Corner.passesX. lra.
  - apply Corner_splitPillPart_horizontal_keep. unfold Corner.passesY. lra.
Qed.

(** In [onSingleClick] a pill crossed on both axes whose vertical cut is
    turned down is moved aside and its horizontal cut is not tried. *)
Lemma Corner_refused_vertical_cut_skips_horizontal :
  forall r : Rand,
    Corner.crossesY 50 (Corner.mkPart "p" 0 0 30 100 "c" Corner.allRounded None) /\
    Corner.passesY 50 (Corner.mkPart "p" 0 0 30 100 "c" Corner.allRounded None) /\
    Corner.clickPill (Some sampleContainer) 15 50
      (Corner.mkPart "p" 0 0 30 100 "c" Corner.allRounded None) r
    = (([Corner.mkPart "p" 15 0 30 100 "c" Corner.allRounded None], true), r).
Proof.
  intro r. split; [| split].
  - unfold Corner.crossesY; cbn; lra.
  - unfold Corner.passesY, Corner.MIN_PART_SIZE; cbn; lra.
  - reflexivity.
Qed.

(** C2, at the input where the corner component departs from it: the
    part (0, 0, 40, 100) is crossed at x = 20, both extents the cut would
    leave equal [MIN_PART_SIZE] = 20, yet [splitPillPart] returns the part
    uncut and [onSingleClick] moves it to x = 20 in one piece; on the same
    geometry the flat component puts out two children 20 wide. *)
Theorem C2_corner_refuses_cut_leaving_minimum :
  forall r : Rand,
    Corner.crossesX 20 sampleNarrowPart /\
    20 - Corner.x sampleNarrowPart == Corner.MIN_PART_SIZE /\
    Corner.x sampleNarrowPart + Corner.width sampleNarrowPart - 20
      == Corner.MIN_PART_SIZE /\
    Corner.splitPillPart sampleNarrowPart Corner.vertical 20 r
      = ([sampleNarrowPart], r) /\
    Corner.clickPill (Some sampleContainer) 20 150 sampleNarrowPart r
      = (([Corner.mkPart "p" 20 0 40 100 "hsl(180, 70%, 80%)"
                         Corner.allRounded None], true), r) /\
    Flat.splitPill 20 150 sampleNarrowPill r
      = ([ Flat.mkPill (ids r (used r)) 0 0 20 100 "#60a5fa";
           Flat.mkPill (ids r (S (used r))) 20 0 20 100 "#60a5fa" ],
         tick (tick r)).
Proof.
  intro r.
  split; [unfold Corner.crossesX; cbn; lra |].
  split; [reflexivity |]. split; [reflexivity |].
  split; [reflexivity |]. split; reflexivity.
Qed.

(** ** Moving a shape aside *)

(** Case analysis on every [Qmax] and [Qmin] of the goal and the context. *)
Ltac minmax_case t spec :=
  let v := fresh "m" in
  destruct spec as [[? ?] | [? ?]];
  set (v := t) in *; clearbody v.

Ltac minmax_cases :=
  repeat match goal with
         | |- context [Qmax ?a ?b] => minmax_case (Qmax a b) (Q.max_spec a b)
         | |- context [Qmin ?a ?b] => minmax_case (Qmin a b) (Q.min_spec a b)
         | H : context [Qmax ?a ?b] |- _ => minmax_case (Qmax a b) (Q.max_spec a b)
         | H : context [Qmin ?a ?b] |- _ => minmax_case (Qmin a b) (Q.min_spec a b)
         end.

(** Where [movePartAside] puts a part the line crosses. *)
Lemma Corner_movePartAside_vertical cref (part : Corner.PillPart) (splitAt : Q) :
  Corner.crossesX splitAt part ->
  let q := Corner.movePartAside cref part Corner.vertical splitAt in
  (Corner.x part + Corner.width part / 2 < splitAt ->
   Corner.x q == Qmax 0 (splitAt - Corner.width part)) /\
  (~ Corner.x part + Corner.width part / 2 < splitAt ->
   Corner.x q = Qmin splitAt (Corner.containerWidth cref - Corner.width part)) /\
  (~ Corner.x part + Corner.width part / 2 < splitAt ->
   splitAt <= Corner.containerWidth cref - Corner.width part ->
   Corner.x q == splitAt /\ ~ Corner.crossesX splitAt q).
Proof.
  unfold Corner.crossesX, Corner.movePartAside. intros [H1 H2]. cbv zeta.
  destruct (ltb_spec (Corner.x part + Corner.width part / 2) splitAt);
    cbn [Corner.x Corner.width].
  - split; [| split]; [intros _; minmax_cases; lra | tauto | tauto].
  - split; [| split]; [tauto | reflexivity |].
    intros _ B. split; [| intros [C1 C2]]; minmax_cases; lra.
Qed.

Lemma Corner_movePartAside_horizontal cref (part : Corner.PillPart) (splitAt : Q) :
  Corner.crossesY splitAt part ->
  let q := Corner.movePartAside cref part Corner.horizontal splitAt in
  (Corner.y part + Corner.height part / 2 < splitAt ->
   Corner.y q == Qmax 0 (splitAt - Corner.height part)) /\
  (~ Corner.y part + Corner.height part / 2 < splitAt ->
   Corner.y q = Qmin splitAt (Corner.containerHeight cref - Corner.height part)) /\
  (~ Corner.y part + Corner.height part / 2 < splitAt ->
   splitAt <= Corner.containerHeight cref - Corner.height part ->
   Corner.y q == splitAt /\ ~ Corner.crossesY splitAt q).
Proof.
  unfold Corner.crossesY, Corner.movePartAside. intros [H1 H2]. cbv zeta.
  destruct (ltb_spec (Corner.y part + Corner.height part / 2) splitAt);
    cbn [Corner.y Corner.height].
  - split; [| split]; [intros _; minmax_cases; lra | tauto | tauto].
  - split; [| split]; [tauto | reflexivity |].
    intros _ B. split; [| intros [C1 C2]]; minmax_cases; lra.
Qed.

(** Where the last branch of [splitPillsAt] puts a pill on an axis. *)
Lemma Flat_asideOf_spec (pos extent split : Q) :
  pos < split /\ split < pos + extent ->
  (pos + extent / 2 < split -> Flat.asideOf pos extent split = split - extent - 2) /\
  (~ pos + extent / 2 < split -> Flat.asideOf pos extent split = split + 2) /\
  ~ (Flat.asideOf pos extent split < split /\
     split < Flat.asideOf pos extent split + extent).
Proof.
  intros [H1 H2]. unfold Flat.asideOf.
  destruct (ltb_spec (pos + extent / 2) split);
    (split; [| split]); try tauto; try reflexivity; lra.
Qed.

(** C4, as the code has it.  Flat component: a pill that crosses at least
    one line and is cut on none keeps its id, colour, width and height; on
    each axis it crosses it is moved to [split - extent - 2] when its centre
    is before the line and to [split + 2] otherwise, so that it no longer
    crosses that line; on an axis it does not cross it stays where it was.
    Corner component: a part crossed by the vertical line where the cut
    would leave an extent below [MIN_PART_SIZE] (or crossed by the
    horizontal line only, with such a cut) keeps its id, colour and extents
    and is moved, without margin, to [max(0, split - extent)] when its
    centre is before the line and to [min(split, containerExtent - extent)]
    otherwise, which is the split coordinate itself when
    [split <= containerExtent - extent]: the part then starts on the line
    and no longer crosses it. *)
Theorem C4_uncut_shape_moved_aside :
  (forall (splitX splitY : Q) (p : Flat.Pill) (r : Rand),
      Flat.crossesX splitX p \/ Flat.crossesY splitY p ->
      ~ (Flat.crossesX splitX p /\ Flat.splittableX splitX p) ->
      ~ (Flat.crossesY splitY p /\ Flat.splittableY splitY p) ->
      exists q,
        Flat.splitPill splitX splitY p r = ([q], r) /\
        Flat.id q = Flat.id p /\ Flat.color q = Flat.color p /\
        Flat.w q = Flat.w p /\ Flat.h q = Flat.h p /\
        (Flat.crossesX splitX p ->
         (Flat.x p + Flat.w p / 2 < splitX -> Flat.x q = splitX - Flat.w p - 2) /\
         (~ Flat.x p + Flat.w p / 2 < splitX -> Flat.x q = splitX + 2) /\
         ~ Flat.crossesX splitX q) /\
        (~ Flat.crossesX splitX p -> Flat.x q = Flat.x p) /\
        (Flat.crossesY splitY p ->
         (Flat.y p + Flat.h p / 2 < splitY -> Flat.y q = splitY - Flat.h p - 2) /\
         (~ Flat.y p + Flat.h p / 2 < splitY -> Flat.y q = splitY + 2) /\
         ~ Flat.crossesY splitY q) /\
        (~ Flat.crossesY splitY p -> Flat.y q = Flat.y p))
  /\
  (forall (cref : option Container) (splitX splitY : Q)
          (p : Corner.PillPart) (r : Rand),
      Corner.isDrawing p = false ->
      Corner.crossesX splitX p -> ~ Corner.splittableX splitX p ->
      exists q,
        Corner.clickPill cref splitX splitY p r = (([q], true), r) /\
        Corner.id q = Corner.id p /\ Corner.color q = Corner.color p /\
        Corner.width q = Corner.width p /\ Corner.height q = Corner.height p /\
        Corner.y q = Corner.y p /\
        (Corner.x p + Corner.width p / 2 < splitX ->
         Corner.x q == Qmax 0 (splitX - Corner.width p)) /\
        (~ Corner.x p + Corner.width p / 2 < splitX ->
         Corner.x q = Qmin splitX (Corner.containerWidth cref - Corner.width p)) /\
        (~ Corner.x p + Corner.width p / 2 < splitX ->
         splitX <= Corner.containerWidth cref - Corner.width p ->
         Corner.x q == splitX /\ ~ Corner.crossesX splitX q))
  /\
  (forall (cref : option Container) (splitX splitY : Q)
          (p : Corner.PillPart) (r : Rand),
      Corner.isDrawing p = false ->
      ~ Corner.crossesX splitX p ->
      Corner.crossesY splitY p -> ~ Corner.splittableY splitY p ->
      exists q,
        Corner.clickPill cref splitX splitY p r = (([q], true), r) /\
        Corner.id q = Corner.id p /\ Corner.color q = Corner.color p /\
        Corner.width q = Corner.width p /\ Corner.height q = Corner.height p /\
        Corner.x q = Corner.x p /\
        (Corner.y p + Corner.height p / 2 < splitY ->
         Corner.y q == Qmax 0 (splitY - Corner.height p)) /\
        (~ Corner.y p + Corner.height p / 2 < splitY ->
         Corner.y q = Qmin splitY (Corner.containerHeight cref - Corner.height p)) /\
        (~ Corner.y p + Corner.height p / 2 < splitY ->
         splitY <= Corner.containerHeight cref - Corner.height p ->
         Corner.y q == splitY /\ ~ Corner.crossesY splitY q)).
Proof.
  split; [| split].
  - intros splitX splitY p r HC HX HY.
    rewrite (Flat_splitPill_aside splitX splitY p r HC HX HY).
    eexists. split; [reflexivity |]. cbn [Flat.id Flat.color Flat.w Flat.h Flat.x Flat.y].
    do 4 (split; [reflexivity |]).
    unfold Flat.crossesX, Flat.crossesY. cbn [Flat.x Flat.y Flat.w Flat.h].
    split; [| split; [| split]].
    + intro C. rewrite (within_true _ _ _ C). now apply Flat_asideOf_spec.
    + intro C. destruct (within_spec (Flat.x p) (Flat.x p + Flat.w p) splitX);
        [contradiction | reflexivity].
    + intro C. rewrite (within_true _ _ _ C). now apply Flat_asideOf_spec.
    + intro C. destruct (within_spec (Flat.y p) (Flat.y p + Flat.h p) splitY);
        [contradiction | reflexivity].
  - intros cref splitX splitY p r HD HX HS.
    rewrite (Corner_clickPill_aside_vertical cref splitX splitY p r HD HX
               (Corner_unsplittableX_refused _ _ HS)).
    eexists. split; [reflexivity |].
    destruct (Corner_movePartAside_frame cref p Corner.vertical splitX)
      as (F1 & F2 & F3 & F4 & _ & _ & F5).
    do 5 (split; [assumption |]).
    exact (Corner_movePartAside_vertical cref p splitX HX).
  - intros cref splitX splitY p r HD HX HY HS.
    rewrite (Corner_clickPill_aside_horizontal cref splitX splitY p r HD HX HY
               (Corner_unsplittableY_refused _ _ HS)).
    eexists. split; [reflexivity |].
    destruct (Corner_movePartAside_frame cref p Corner.horizontal splitY)
      as (F1 & F2 & F3 & F4 & _ & _ & F5).
    do 5 (split; [assumption |]).
    exact (Corner_movePartAside_horizontal cref p splitY HY).
Qed.

Lemma C4_uncut_shape_moved_aside_witness :
  (exists q,
    Flat.splitPill 10 250 sampleTallPill sampleRand = ([q], sampleRand) /\
    Flat.id q = Flat.id sampleTallPill /\ Flat.color q = Flat.color sampleTallPill /\
    Flat.w q = Flat.w sampleTallPill /\ Flat.h q = Flat.h sampleTallPill /\
    (Flat.crossesX 10 sampleTallPill ->
     (Flat.x sampleTallPill + Flat.w sampleTallPill / 2 < 10 ->
      Flat.x q = 10 - Flat.w sampleTallPill - 2) /\
     (~ Flat.x sampleTallPill + Flat.w sampleTallPill / 2 < 10 ->
      Flat.x q = 10 + 2) /\
     ~ Flat.crossesX 10 q) /\
    (~ Flat.crossesX 10 sampleTallPill -> Flat.x q = Flat.x sampleTallPill) /\
    (Flat.crossesY 250 sampleTallPill ->
     (Flat.y sampleTallPill + Flat.h sampleTallPill / 2 < 250 ->
      Flat.y q = 250 - Flat.h sampleTallPill - 2) /\
     (~ Flat.y sampleTallPill + Flat.h sampleTallPill / 2 < 250 ->
      Flat.y q = 250 + 2) /\
     ~ Flat.crossesY 250 q) /\
    (~ Flat.crossesY 250 sampleTallPill -> Flat.y q = Flat.y sampleTallPill))
  /\
  (exists q,
    Corner.clickPill (Some sampleContainer) 10 150 sampleNarrowPart sampleRand
    = (([q], true), sampleRand) /\
    Corner.id q = Corner.id sampleNarrowPart /\
    Corner.color q = Corner.color sampleNarrowPart /\
    Corner.width q = Corner.width sampleNarrowPart /\
    Corner.height q = Corner.height sampleNarrowPart /\
    Corner.y q = Corner.y sampleNarrowPart /\
    (Corner.x sampleNarrowPart + Corner.width sampleNarrowPart / 2 < 10 ->
     Corner.x q == Qmax 0 (10 - Corner.width sampleNarrowPart)) /\
    (~ Corner.x sampleNarrowPart + Corner.width sampleNarrowPart / 2 < 10 ->
     Corner.x q = Qmin 10 (Corner.containerWidth (Some sampleContainer)
                           - Corner.width sampleNarrowPart)) /\
    (~ Corner.x sampleNarrowPart + Corner.width sampleNarrowPart / 2 < 10 ->
     10 <= Corner.containerWidth (Some sampleContainer)
           - Corner.width sampleNarrowPart ->
     Corner.x q == 10 /\ ~ Corner.crossesX 10 q)).
Proof.
  split.
  - apply (proj1 C4_uncut_shape_moved_aside 10 250 sampleTallPill sampleRand).
    + left. unfold Flat.crossesX; cbn; lra.
    + unfold Flat.splittableX, Flat.MIN_SPLIT_SIZE; cbn; lra.
    + unfold Flat.crossesY; cbn; lra.
  - apply (proj1 (proj2 C4_uncut_shape_moved_aside)
             (Some sampleContainer) 10 150 sampleNarrowPart sampleRand).
    + reflexivity.
    + unfold Corner.crossesX; cbn; lra.
    + unfold Corner.splittableX, Corner.MIN_PART_SIZE; cbn; lra.
Defined.

(** C4 as it is worded fails in the flat component: the pill
    (0, 0, 25, 100) is crossed at x = 10 by a cut that would leave a width
    of 10, below the minimum, but as the horizontal cut at y = 50 is
    allowed the pill is cut into a top and a bottom child that both stay at
    x = 0, across the vertical line, instead of being moved to x = 12. *)
Lemma C4_counterexample_cut_shape_not_moved :
  Flat.crossesX 10 sampleTallPill /\ ~ Flat.splittableX 10 sampleTallPill /\
  exists a b r',
    Flat.splitPill 10 50 sampleTallPill sampleRand = ([a; b], r') /\
    Flat.crossesX 10 a /\ Flat.crossesX 10 b /\
    ~ Flat.x a == 10 + 2 /\ ~ Flat.x b == 10 + 2.
Proof.
  split; [unfold Flat.crossesX; cbn; lra |].
  split; [unfold Flat.splittableX, Flat.MIN_SPLIT_SIZE; cbn; lra |].
  do 3 eexists. split; [reflexivity |].
  unfold Flat.crossesX. cbn. repeat split; lra.
Qed.

(** ** Crossed on both axes, cut on one *)

(** C1, as the code has it.  Flat component: a pill crossed on both axes
    of which exactly one can be cut is cut in two along that axis and is
    not moved: both children keep the parent's position and extent on the
    other axis.  Corner component: a part crossed on both axes whose
    vertical cut passes the guard of [splitPillPart] and whose horizontal
    cut would leave a height below [MIN_PART_SIZE] is cut into a left and
    a right part, [splitX - x] and [width - (splitX - x)] wide, and each of
    them is handed to [movePartAside] for the horizontal line, which keeps
    its x and its extents and moves it to [max(0, splitY - height)] when
    the centre is above the line and to
    [min(splitY, containerHeight - height)] otherwise, which is [splitY]
    itself when [splitY <= containerHeight - height]: the part then starts
    on the line and no longer crosses it. *)
Theorem C1_crossed_twice_cut_once :
  (forall (splitX splitY : Q) (p : Flat.Pill) (r : Rand),
      Flat.crossesX splitX p -> Flat.crossesY splitY p ->
      Flat.splittableX splitX p -> ~ Flat.splittableY splitY p ->
      exists a b r',
        Flat.splitPill splitX splitY p r = ([a; b], r') /\
        Flat.cutAtX splitX p [a; b] /\
        Flat.y a = Flat.y p /\ Flat.h a = Flat.h p /\
        Flat.y b = Flat.y p /\ Flat.h b = Flat.h p)
  /\
  (forall (splitX splitY : Q) (p : Flat.Pill) (r : Rand),
      Flat.crossesX splitX p -> Flat.crossesY splitY p ->
      ~ Flat.splittableX splitX p -> Flat.splittableY splitY p ->
      exists a b r',
        Flat.splitPill splitX splitY p r = ([a; b], r') /\
        Flat.cutAtY splitY p [a; b] /\
        Flat.x a = Flat.x p /\ Flat.w a = Flat.w p /\
        Flat.x b = Flat.x p /\ Flat.w b = Flat.w p)
  /\
  (forall (cref : option Container) (splitX splitY : Q)
          (p : Corner.PillPart) (r : Rand),
      Corner.isDrawing p = false ->
      Corner.crossesX splitX p -> Corner.crossesY splitY p ->
      Corner_guardX splitX p -> ~ Corner.splittableY splitY p ->
      exists a b r',
        Corner.splitPillPart p Corner.vertical splitX r = ([a; b], r') /\
        Corner.geom a
        = (Corner.x p, Corner.y p, splitX - Corner.x p, Corner.height p) /\
        Corner.geom b
        = (splitX, Corner.y p,
           Corner.width p - (splitX - Corner.x p), Corner.height p) /\
        Corner.clickPill cref splitX splitY p r
        = (([ Corner.movePartAside cref a Corner.horizontal splitY;
              Corner.movePartAside cref b Corner.horizontal splitY ], true), r') /\
        Forall
          (fun c =>
             let q := Corner.movePartAside cref c Corner.horizontal splitY in
             Corner.x q = Corner.x c /\ Corner.width q = Corner.width c /\
             Corner.height q = Corner.height p /\
             (Corner.y p + Corner.height p / 2 < splitY ->
              Corner.y q == Qmax 0 (splitY - Corner.height p)) /\
             (~ Corner.y p + Corner.height p / 2 < splitY ->
              Corner.y q
              = Qmin splitY (Corner.containerHeight cref - Corner.height p)) /\
             (~ Corner.y p + Corner.height p / 2 < splitY ->
              splitY <= Corner.containerHeight cref - Corner.height p ->
              Corner.y q == splitY /\ ~ Corner.crossesY splitY q))
          [a; b]).
Proof.
  split; [| split].
  - intros splitX splitY p r HX HY SX SY.
    rewrite Flat_splitPill_vertical by tauto.
    do 3 eexists. split; [reflexivity |]. split; [| now repeat split].
    do 2 eexists. split; [left; reflexivity |].
    split; [right; left; reflexivity |]. now repeat split.
  - intros splitX splitY p r HX HY SX SY.
    rewrite Flat_splitPill_horizontal by tauto.
    do 3 eexists. split; [reflexivity |]. split; [| now repeat split].
    do 2 eexists. split; [left; reflexivity |].
    split; [right; left; reflexivity |]. now repeat split.
  - intros cref splitX splitY p r HD HX HY GX SY.
    pose proof (Corner_guardX_passes _ _ GX) as PX.
    pose proof (Corner_unsplittableY_refused _ _ SY) as PY.
    rewrite (Corner_splitPillPart_vertical_cut splitX p r PX).
    rewrite (Corner_clickPill_vertical_then_aside cref splitX splitY p r HD HX PX HY PY).
    do 3 eexists. split; [reflexivity |].
    split; [reflexivity |]. split; [reflexivity |]. split; [reflexivity |].
    repeat (apply Forall_cons; [| try apply Forall_nil]).
    + destruct (Corner_movePartAside_frame cref
                  (Corner.leftOf (ids r (used r)) p splitX) Corner.horizontal splitY)
        as (_ & _ & F3 & F4 & _ & _ & F5).
      cbv zeta. split; [exact F5 |]. split; [exact F3 |]. split; [exact F4 |].
      exact (Corner_movePartAside_horizontal cref
               (Corner.leftOf (ids r (used r)) p splitX) splitY HY).
    + destruct (Corner_movePartAside_frame cref
                  (Corner.rightOf (ids r (S (used r))) p splitX)
                  Corner.horizontal splitY)
        as (_ & _ & F3 & F4 & _ & _ & F5).
      cbv zeta. split; [exact F5 |]. split; [exact F3 |]. split; [exact F4 |].
      exact (Corner_movePartAside_horizontal cref
               (Corner.rightOf (ids r (S (used r))) p splitX) splitY HY).
Qed.

Lemma C1_crossed_twice_cut_once_witness :
  (exists a b r',
      Flat.splitPill 50 10 sampleWidePill sampleRand = ([a; b], r') /\
      Flat.cutAtX 50 sampleWidePill [a; b] /\
      Flat.y a = Flat.y sampleWidePill /\ Flat.h a = Flat.h sampleWidePill /\
      Flat.y b = Flat.y sampleWidePill /\ Flat.h b = Flat.h sampleWidePill)
  /\
  (exists a b r',
      Corner.splitPillPart sampleWidePart Corner.vertical 150 sampleRand
      = ([a; b], r') /\
      Corner.geom a = (100, 100, 150 - 100, 25) /\
      Corner.geom b = (150, 100, 100 - (150 - 100), 25) /\
      Corner.clickPill (Some sampleContainer) 150 110 sampleWidePart sampleRand
      = (([ Corner.movePartAside (Some sampleContainer) a Corner.horizontal 110;
            Corner.movePartAside (Some sampleContainer) b Corner.horizontal 110 ],
          true), r') /\
      Forall
        (fun c =>
           let q := Corner.movePartAside (Some sampleContainer) c
                      Corner.horizontal 110 in
           Corner.x q = Corner.x c /\ Corner.width q = Corner.width c /\
           Corner.height q = 25 /\
           (100 + 25 / 2 < 110 -> Corner.y q == Qmax 0 (110 - 25)) /\
           (~ 100 + 25 / 2 < 110 ->
            Corner.y q
            = Qmin 110 (Corner.containerHeight (Some sampleContainer) - 25)) /\
           (~ 100 + 25 / 2 < 110 ->
            110 <= Corner.containerHeight (Some sampleContainer) - 25 ->
            Corner.y q == 110 /\ ~ Corner.crossesY 110 q))
        [a; b]).
Proof.
  split.
  - apply (proj1 C1_crossed_twice_cut_once 50 10 sampleWidePill sampleRand).
    + unfold Flat.crossesX; cbn; lra.
    + unfold Flat.crossesY; cbn; lra.
    + unfold Flat.splittableX, Flat.MIN_SPLIT_SIZE; cbn; lra.
    + unfold Flat.splittableY, Flat.MIN_SPLIT_SIZE; cbn; lra.
  - apply (proj2 (proj2 C1_crossed_twice_cut_once)
             (Some sampleContainer) 150 110 sampleWidePart sampleRand).
    + reflexivity.
    + unfold Corner.crossesX; cbn; lra.
    + unfold Corner.crossesY; cbn; lra.
    + unfold Corner_guardX, Corner.MIN_PART_SIZE; cbn; lra.
    + unfold Corner.splittableY, Corner.MIN_PART_SIZE; cbn; lra.
Defined.

(** C1 as it is worded fails in the flat component: the pill
    (0, 0, 100, 25) is crossed on both axes at (50, 10); the vertical cut is
    allowed and the horizontal one is not (it would leave a height of 10);
    the two children stay at y = 0 with height 25, across the horizontal
    line. *)
Lemma C1_counterexample_children_left_across :
  Flat.crossesX 50 sampleWidePill /\ Flat.crossesY 10 sampleWidePill /\
  Flat.splittableX 50 sampleWidePill /\ ~ Flat.splittableY 10 sampleWidePill /\
  exists a b r',
    Flat.splitPill 50 10 sampleWidePill sampleRand = ([a; b], r') /\
    Flat.crossesY 10 a /\ Flat.crossesY 10 b.
Proof.
  split; [unfold Flat.crossesX; cbn; lra |].
  split; [unfold Flat.crossesY; cbn; lra |].
  split; [unfold Flat.splittableX, Flat.MIN_SPLIT_SIZE; cbn; lra |].
  split; [unfold Flat.splittableY, Flat.MIN_SPLIT_SIZE; cbn; lra |].
  do 3 eexists. split; [reflexivity |].
  unfold Flat.crossesY. cbn. repeat split; lra.
Qed.

(** ** Draw gestures *)

Lemma Flat_commitDraw_small (d : Flat.DrawState) (prev : list Flat.Pill) (r : Rand) :
  Qabs (Flat.ex d - Flat.sx d) < Flat.MIN_DRAW_SIZE \/
  Qabs (Flat.ey d - Flat.sy d) < Flat.MIN_DRAW_SIZE ->
  Flat.commitDraw d prev r = (prev, r).
Proof.
  intro H. unfold Flat.commitDraw.
  destruct (geb_spec (Qabs (Flat.ex d - Flat.sx d)) Flat.MIN_DRAW_SIZE);
    destruct (geb_spec (Qabs (Flat.ey d - Flat.sy d)) Flat.MIN_DRAW_SIZE);
    cbn [andb]; try reflexivity.
  exfalso. destruct H; lra.
Qed.

Lemma Flat_commitDraw_large (d : Flat.DrawState) (prev : list Flat.Pill) (r : Rand) :
  Flat.MIN_DRAW_SIZE <= Qabs (Flat.ex d - Flat.sx d) ->
  Flat.MIN_DRAW_SIZE <= Qabs (Flat.ey d - Flat.sy d) ->
  exists q, fst (Flat.commitDraw d prev r) = prev ++ [q] /\
            Flat.w q = Qabs (Flat.ex d - Flat.sx d) /\
            Flat.h q = Qabs (Flat.ey d - Flat.sy d).
Proof.
  intros H1 H2. unfold Flat.commitDraw.
  rewrite (geb_true _ _ H1), (geb_true _ _ H2). cbn [andb].
  eexists. split; [reflexivity |]. split; reflexivity.
Qed.

(** The preview pill of the corner component is never below the minimum:
    [onMouseMove] raises its size to [MIN_PILL_SIZE]. *)
Lemma Corner_preview_at_least_minimum (c : Container) (e : MouseEvent)
      (s : Corner.State) (d : Corner.DrawingRef) :
  Corner.drawingRef s = Some d -> Corner.drawing d = true ->
  Corner.dragRef s = None ->
  exists q,
    Corner.pills (Corner.onMouseMove (Some c) e s)
    = filter (fun p => negb (Corner.isDrawing p)) (Corner.pills s) ++ [q] /\
    Corner.isDrawing q = true /\
    Corner.MIN_PILL_SIZE <= Corner.width q /\
    Corner.MIN_PILL_SIZE <= Corner.height q.
Proof.
  intros Hd Hdr Hg. unfold Corner.onMouseMove. rewrite Hd, Hdr, Hg.
  cbn [Corner.pills]. eexists. split; [reflexivity |].
  split; [reflexivity |].
  cbn [Corner.width Corner.height Corner.drawingPill].
  split; apply Q.le_max_r.
Qed.

(** The flat component discards a draw gesture that ends with a rectangle
    below the minimum draw size in either dimension: the draw branch of
    [handleMouseUp] leaves the store as it was, so that after the handler
    the store is the old one, or the old one split when the gesture also
    counts as a click. *)
Lemma Flat_small_draw_adds_no_shape :
  forall (cref : option Container) (now : Z) (e : MouseEvent)
         (s : Flat.State) (d : Flat.DrawState) (r : Rand),
    Flat.drawState s = Some d ->
    Qabs (Flat.ex d - Flat.sx d) < Flat.MIN_DRAW_SIZE \/
    Qabs (Flat.ey d - Flat.sy d) < Flat.MIN_DRAW_SIZE ->
    let p := Flat.getRelativePosition cref e in
    let click :=
      Flat.isClick
        (hypot_ltb (px p - Flat.click_x (Flat.clickRef s))
                   (py p - Flat.click_y (Flat.clickRef s)) 4)
        (now - Flat.click_time (Flat.clickRef s)) in
    Flat.commitDraw d (Flat.pills s) r = (Flat.pills s, r) /\
    (click = false ->
     Flat.handleMouseUp cref now e s r
     = (Flat.mkState (Flat.pills s) (Flat.cursor s) None None (Flat.clickRef s), r)) /\
    (click = true ->
     Flat.pills (fst (Flat.handleMouseUp cref now e s r))
     = fst (Flat.splitPillsAt (px p) (py p) (Flat.pills s) r)).
Proof.
  intros cref now e s d r Hd Hsmall p click.
  pose proof (Flat_commitDraw_small d (Flat.pills s) r Hsmall) as HC.
  split; [exact HC |].
  unfold Flat.handleMouseUp. rewrite Hd. fold p. fold click.
  unfold bind. rewrite HC.
  split; intro Hc; rewrite Hc; destruct (Flat.dragState s);
    unfold ret; try reflexivity;
    destruct (Flat.splitPillsAt (px p) (py p) (Flat.pills s) r); reflexivity.
Qed.

Example Flat_small_draw_sample :
  Flat.handleMouseUp (Some sampleContainer) 1000%Z (mkEvent 330 380)
    sampleSmallDraw sampleRand
  = (Flat.mkState [sampleFlatPill] (mkPoint 330 380) None None
                  (Flat.mkClick 300 300 0 ""), sampleRand).
Proof.
  apply (Flat_small_draw_adds_no_shape (Some sampleContainer) 1000%Z
           (mkEvent 330 380) sampleSmallDraw (Flat.mkDraw 300 300 330 380)
           sampleRand).
  - reflexivity.
  - left. unfold Flat.MIN_DRAW_SIZE. cbn. lra.
  - reflexivity.
Qed.

(** C5 fails in the corner component: a draw gesture below the minimum
    draw size is not discarded.  On an empty store, a mouse down on empty
    ground at [e0], a mouse move to [e1] and a mouse up leave one pill in
    the store, whose width and height are the distances dragged raised to
    [MIN_PILL_SIZE]; a drag from (100, 100) to (110, 110), 10 px on both
    axes, leaves a 40 x 40 pill at (100, 100). *)
Theorem C5_corner_short_draw_adds_a_pill :
  (forall (c : Container) (e0 e1 : MouseEvent) (r : Rand),
      let s0 := Corner.mkState [] None None None in
      let s1 := Corner.onMouseDown (Some c) None e0 s0 in
      let s2 := Corner.onMouseMove (Some c) e1 s1 in
      exists q,
        Corner.pills (fst (Corner.onMouseUp s2 r)) = [q] /\
        Corner.width q
        = Qmax (Qabs (clientX e1 - rect_left c - (clientX e0 - rect_left c)))
               Corner.MIN_PILL_SIZE /\
        Corner.height q
        = Qmax (Qabs (clientY e1 - rect_top c - (clientY e0 - rect_top c)))
               Corner.MIN_PILL_SIZE /\
        Corner.MIN_PILL_SIZE <= Corner.width q /\
        Corner.MIN_PILL_SIZE <= Corner.height q)
  /\
  (let s0 := Corner.mkState [] None None None in
   let s1 := Corner.onMouseDown (Some sampleContainer) None (mkEvent 100 100) s0 in
   let s2 := Corner.onMouseMove (Some sampleContainer) (mkEvent 110 110) s1 in
   Qabs (110 - 100) < Corner.MIN_PILL_SIZE /\
   Corner.pills (fst (Corner.onMouseUp s2 sampleRand))
   = [Corner.mkPart "id0" 100 100 40 40 "hsl(180, 70%, 80%)" Corner.allRounded None]).
Proof.
  split.
  - intros c e0 e1 r s0 s1 s2. subst s0 s1 s2.
    unfold Corner.onMouseDown, Corner.onMouseMove, Corner.onMouseUp.
    cbn [Corner.pills Corner.drawingRef Corner.dragRef Corner.drawing
         Corner.startX Corner.startY app filter Corner.isDrawing Corner.id
         Corner.drawingPill String.eqb Ascii.eqb Bool.eqb negb find
         Corner.width Corner.height].
    rewrite (geb_true _ _ (Q.le_max_r _ _)), (geb_true _ _ (Q.le_max_r _ _)).
    cbn [andb]. unfold bind, ret, generateId, Corner.randomColor, Math_random, bind, ret.
    cbn [fst Corner.pills]. eexists. split; [reflexivity |].
    cbn [Corner.width Corner.height].
    split; [reflexivity |]. split; [reflexivity |]. split; apply Q.le_max_r.
  - cbv zeta. split; [unfold Corner.MIN_PILL_SIZE; cbn; lra | reflexivity].
Qed.

(** ** Dragging *)

Lemma findIndex_nth_error {A : Type} (f : A -> bool) (l : list A) (i : nat) :
  Corner.findIndex f l = Some i ->
  exists a, nth_error l i = Some a /\ f a = true.
Proof.
  revert i. induction l as [| b l IH]; intros i H; [discriminate |].
  cbn [Corner.findIndex] in H. destruct (f b) eqn:Fb.
  - injection H as <-. exists b. now split.
  - destruct (Corner.findIndex f l) as [j |]; [| discriminate].
    injection H as <-. exact (IH j eq_refl).
Qed.

Lemma nth_error_updateAt_same {A : Type} (l : list A) (i : nat) (a v : A) :
  nth_error l i = Some a -> nth_error (Corner.updateAt l i v) i = Some v.
Proof.
  revert i. induction l as [| b l IH]; intros [| i] H; try discriminate.
  - reflexivity.
  - cbn in *. now apply IH.
Qed.

Lemma nth_error_updateAt_other {A : Type} (l : list A) (i j : nat) (v : A) :
  j <> i -> nth_error (Corner.updateAt l i v) j = nth_error l j.
Proof.
  revert i j. induction l as [| b l IH]; intros [| i] [| j] H;
    try reflexivity; try contradiction.
  cbn. apply IH. congruence.
Qed.

Lemma Qclamp_within (lo hi v : Q) :
  lo <= hi -> lo <= Qmax lo (Qmin v hi) <= hi.
Proof. intro H. minmax_cases; lra. Qed.

(** C6, as the code has it.  Corner component: a mouse move that drags a
    pill puts it at [max(0, min(pointer - offset, containerExtent - extent))]
    on each axis, so that a pill no larger than the container lies within
    [0, containerWidth - width] x [0, containerHeight - height] afterwards;
    its id, size, colour and rounding are kept and every other pill of the
    store is left as it was.  Flat component: the dragged pill is put at
    pointer minus offset with no clamp. *)
Theorem C6_drag_clamped_in_corner_component :
  (forall (c : Container) (e : MouseEvent) (s : Corner.State)
          (g : Corner.DragRef) (i : nat),
      Corner.dragRef s = Some g -> Corner.dragging g = true ->
      Corner.findIndex (fun p => String.eqb (Corner.id p) (Corner.pillId g))
                       (Corner.pills s) = Some i ->
      let s' := Corner.onMouseMove (Some c) e s in
      exists pill q,
        nth_error (Corner.pills s) i = Some pill /\
        Corner.id pill = Corner.pillId g /\
        nth_error (Corner.pills s') i = Some q /\
        (forall j, j <> i ->
                   nth_error (Corner.pills s') j = nth_error (Corner.pills s) j) /\
        Corner.id q = Corner.id pill /\ Corner.color q = Corner.color pill /\
        Corner.width q = Corner.width pill /\ Corner.height q = Corner.height pill /\
        Corner.borderRadius q = Corner.borderRadius pill /\
        Corner.x q = Qmax 0 (Qmin (clientX e - rect_left c - Corner.offsetX g)
                                  (clientWidth c - Corner.width pill)) /\
        Corner.y q = Qmax 0 (Qmin (clientY e - rect_top c - Corner.offsetY g)
                                  (clientHeight c - Corner.height pill)) /\
        (Corner.width pill <= clientWidth c ->
         0 <= Corner.x q <= clientWidth c - Corner.width q) /\
        (Corner.height pill <= clientHeight c ->
         0 <= Corner.y q <= clientHeight c - Corner.height q))
  /\
  (forall (cref : option Container) (e : MouseEvent) (s : Flat.State)
          (g : Flat.DragState) (pill : Flat.Pill),
      Flat.dragState s = Some g ->
      In pill (Flat.pills s) -> Flat.id pill = Flat.drag_id g ->
      let p := Flat.getRelativePosition cref e in
      In (Flat.mkPill (Flat.id pill) (px p - Flat.dx g) (py p - Flat.dy g)
                      (Flat.w pill) (Flat.h pill) (Flat.color pill))
         (Flat.pills (Flat.handleMouseMove cref e s))).
Proof.
  split.
  - intros c e s g i Hg Hdr Hi s'. subst s'.
    destruct (findIndex_nth_error _ _ _ Hi) as (pill & Hn & Hid).
    apply String.eqb_eq in Hid.
    unfold Corner.onMouseMove. rewrite Hg, Hdr, Hi, Hn. cbn [Corner.pills].
    exists pill. eexists. split; [reflexivity |]. split; [exact Hid |].
    split; [exact (nth_error_updateAt_same _ _ _ _ Hn) |].
    split; [intros j Hj; now apply nth_error_updateAt_other |].
    cbn [Corner.id Corner.color Corner.width Corner.height Corner.borderRadius
         Corner.x Corner.y].
    do 7 (split; [reflexivity |]).
    split; intro H; apply Qclamp_within; lra.
  - intros cref e s g pill Hg Hin Hid p. subst p.
    unfold Flat.handleMouseMove. rewrite Hg. cbn [Flat.pills].
    apply in_map_iff. exists pill. split; [| exact Hin].
    cbv beta. rewrite Hid, String.eqb_refl. reflexivity.
Qed.

Lemma C6_drag_clamped_in_corner_component_witness :
  exists pill q,
    nth_error (Corner.pills sampleCornerDrag) 0 = Some pill /\
    Corner.id pill = "p"%string /\
    nth_error (Corner.pills (Corner.onMouseMove (Some sampleContainer)
                               sampleLeftEvent sampleCornerDrag)) 0
    = Some q /\
    (forall j, j <> 0%nat ->
       nth_error (Corner.pills (Corner.onMouseMove (Some sampleContainer)
                                  sampleLeftEvent sampleCornerDrag)) j
       = nth_error (Corner.pills sampleCornerDrag) j) /\
    Corner.id q = Corner.id pill /\ Corner.color q = Corner.color pill /\
    Corner.width q = Corner.width pill /\ Corner.height q = Corner.height pill /\
    Corner.borderRadius q = Corner.borderRadius pill /\
    Corner.x q = Qmax 0 (Qmin (clientX sampleLeftEvent - rect_left sampleContainer - 5)
                              (clientWidth sampleContainer - Corner.width pill)) /\
    Corner.y q = Qmax 0 (Qmin (clientY sampleLeftEvent - rect_top sampleContainer - 5)
                              (clientHeight sampleContainer - Corner.height pill)) /\
    (Corner.width pill <= clientWidth sampleContainer ->
     0 <= Corner.x q <= clientWidth sampleContainer - Corner.width q) /\
    (Corner.height pill <= clientHeight sampleContainer ->
     0 <= Corner.y q <= clientHeight sampleContainer - Corner.height q).
Proof.
  apply (proj1 C6_drag_clamped_in_corner_component sampleContainer sampleLeftEvent
           sampleCornerDrag (Corner.mkDragRef "p" 5 5 true) 0%nat);
    reflexivity.
Defined.

(** C6 as it is worded fails in the flat component, where
    [handleMouseMove] does not clamp: dragging the 50 x 50 pill with the
    pointer 45 px left of the container puts it at x = -50. *)
Lemma C6_counterexample_flat_drag_leaves_container :
  exists q,
    Flat.pills (Flat.handleMouseMove (Some sampleContainer) sampleLeftEvent
                                     sampleDragState) = [q] /\
    Flat.x q == -50 /\ Flat.w q == 50 /\
    ~ (0 <= Flat.x q <= clientWidth sampleContainer - Flat.w q).
Proof.
  eexists. split; [reflexivity |]. cbn. repeat split; lra.
Qed.

(** * Further properties of the stores *)

(** ** Whole-store facts about [splitPillsAt] *)

Lemma flatMapM_Forall {A B : Type} (f : A -> M (list B))
      (P : A -> Prop) (R : B -> Prop) :
  (forall a r, P a -> Forall R (fst (f a r))) ->
  forall l r, Forall P l -> Forall R (fst (flatMapM f l r)).
Proof.
  intros Hf l. induction l as [| a l IH]; intros r Hl.
  - constructor.
  - cbn [flatMapM]. unfold bind, ret.
    destruct (f a r) as [bs r1] eqn:Ea.
    destruct (flatMapM f l r1) as [rest r2] eqn:El. cbn [fst].
    inversion Hl as [| ? ? Pa Pl]; subst.
    apply Forall_app. split.
    + pose proof (Hf a r Pa) as K. now rewrite Ea in K.
    + pose proof (IH r1 Pl) as K. now rewrite El in K.
Qed.

(** What [splitPillsAt] puts out for one pill: its colour is the pill's,
    it is no smaller than the minimum in either dimension when the pill
    was not, and when the pill was cut each child starts, on either axis,
    at the pill's own edge or on the split line. *)
Lemma Flat_splitPill_children (splitX splitY : Q) (p : Flat.Pill) (r : Rand) :
  let out := fst (Flat.splitPill splitX splitY p r) in
  Forall (fun q => Flat.color q = Flat.color p) out /\
  (Flat_bigEnough p -> Forall Flat_bigEnough out) /\
  (List.length out <> 1%nat ->
   Forall (fun q => (Flat.x q = Flat.x p \/ Flat.x q = splitX) /\
                    (Flat.y q = Flat.y p \/ Flat.y q = splitY)) out).
Proof.
  cbv zeta.
  pose proof (Qle_dec_and Flat.MIN_SPLIT_SIZE (splitX - Flat.x p)
                Flat.MIN_SPLIT_SIZE (Flat.x p + Flat.w p - splitX)) as DX.
  pose proof (Qle_dec_and Flat.MIN_SPLIT_SIZE (splitY - Flat.y p)
                Flat.MIN_SPLIT_SIZE (Flat.y p + Flat.h p - splitY)) as DY.
  pose proof (Qlt_dec_and (Flat.x p) splitX splitX (Flat.x p + Flat.w p)) as CX.
  pose proof (Qlt_dec_and (Flat.y p) splitY splitY (Flat.y p + Flat.h p)) as CY.
  fold (Flat.splittableX splitX p) in DX. fold (Flat.splittableY splitY p) in DY.
  fold (Flat.crossesX splitX p) in CX. fold (Flat.crossesY splitY p) in CY.
  destruct CX as [HX | HX], CY as [HY | HY], DX as [SX | SX], DY as [SY | SY];
    first [ rewrite Flat_splitPill_quad by assumption
          | rewrite Flat_splitPill_vertical by tauto
          | rewrite Flat_splitPill_horizontal by tauto
          | rewrite Flat_splitPill_aside by tauto
          | rewrite Flat_splitPill_pass by assumption ];
    cbn [fst List.length];
    (split; [repeat constructor |]);
    (split; [ intros [B1 B2]; unfold Flat_bigEnough, Flat.splittableX,
                Flat.splittableY in *; repeat constructor; cbn; tauto
            | intro L; try (now elim L);
              repeat (apply Forall_cons;
                      [ cbn [Flat.x Flat.y];
                        split; first [left; reflexivity | right; reflexivity] |]);
              apply Forall_nil ]).
Qed.

Lemma flatMapM_In {A B : Type} (f : A -> M (list B)) (b : B) :
  forall l r, In b (fst (flatMapM f l r)) ->
              exists a r', In a l /\ In b (fst (f a r')).
Proof.
  intro l. induction l as [| a l IH]; intros r Hin.
  - contradiction.
  - cbn [flatMapM] in Hin. unfold bind, ret in Hin.
    destruct (f a r) as [bs r1] eqn:Ea.
    destruct (flatMapM f l r1) as [rest r2] eqn:El. cbn [fst] in Hin.
    apply in_app_or in Hin. destruct Hin as [Hin | Hin].
    + exists a, r. split; [now left |]. now rewrite Ea.
    + destruct (IH r1) as (a' & r' & Ha & Hb); [now rewrite El |].
      exists a', r'. split; [now right | exact Hb].
Qed.

Lemma Flat_commitDraw_bigEnough (d : Flat.DrawState) (prev : list Flat.Pill) (r : Rand) :
  Forall Flat_bigEnough prev ->
  Forall Flat_bigEnough (fst (Flat.commitDraw d prev r)).
Proof.
  intro H. unfold Flat.commitDraw.
  destruct (geb_spec (Qabs (Flat.ex d - Flat.sx d)) Flat.MIN_DRAW_SIZE);
    destruct (geb_spec (Qabs (Flat.ey d - Flat.sy d)) Flat.MIN_DRAW_SIZE);
    cbn [andb]; try exact H.
  unfold bind, ret, generateId, Flat.getRandomColor, Math_random, bind, ret.
  cbn [fst]. apply Forall_app. split; [exact H |].
  constructor; [| constructor].
  unfold Flat_bigEnough, Flat.MIN_SPLIT_SIZE, Flat.MIN_DRAW_SIZE in *.
  cbn [Flat.w Flat.h]. lra.
Qed.

(** X2: no pill of the flat store is ever below the minimum splittable
    size.  If every pill is at least [MIN_SPLIT_SIZE] wide and high, this
    still holds after [splitPillsAt] and after each of the three mouse
    handlers (a drawn pill is at least [MIN_DRAW_SIZE], a child of a cut at
    least [MIN_SPLIT_SIZE], and nothing else changes a size). *)
Theorem X2_flat_pills_stay_big_enough :
  forall (s : Flat.State),
    Forall Flat_bigEnough (Flat.pills s) ->
    (forall splitX splitY r,
        Forall Flat_bigEnough (fst (Flat.splitPillsAt splitX splitY (Flat.pills s) r)))
    /\
    (forall cref now target e s',
        Flat.handleMouseDown cref now target e s = Some s' ->
        Forall Flat_bigEnough (Flat.pills s'))
    /\
    (forall cref e, Forall Flat_bigEnough (Flat.pills (Flat.handleMouseMove cref e s)))
    /\
    (forall cref now e r,
        Forall Flat_bigEnough (Flat.pills (fst (Flat.handleMouseUp cref now e s r)))).
Proof.
  intros s Hs.
  assert (Hsplit : forall splitX splitY l r,
             Forall Flat_bigEnough l ->
             Forall Flat_bigEnough (fst (Flat.splitPillsAt splitX splitY l r))).
  { intros splitX splitY l r Hl. unfold Flat.splitPillsAt.
    apply (flatMapM_Forall _ Flat_bigEnough Flat_bigEnough); [| exact Hl].
    intros a r0 Ha. now apply (Flat_splitPill_children splitX splitY a r0). }
  split; [| split; [| split]].
  - intros. now apply Hsplit.
  - intros cref now target e s'. unfold Flat.handleMouseDown.
    destruct (String.eqb _ EmptyString).
    + intros [= <-]. exact Hs.
    + destruct (find _ (Flat.pills s)) as [t |] eqn:Ef; [| discriminate].
      intros [= <-]. cbn [Flat.pills]. apply Forall_app. split.
      * apply Forall_forall. intros a Ha. apply filter_In in Ha.
        destruct Ha as [Ha _]. revert a Ha. now apply Forall_forall.
      * constructor; [| constructor]. apply find_some in Ef.
        destruct Ef as [Ef _]. revert t Ef. now apply Forall_forall.
  - intros cref e. unfold Flat.handleMouseMove. cbn [Flat.pills].
    destruct (Flat.dragState s) as [g |]; [| exact Hs].
    apply Forall_forall. intros a Ha. apply in_map_iff in Ha.
    destruct Ha as (b & <- & Hb).
    assert (Bb : Flat_bigEnough b) by (revert b Hb; now apply Forall_forall).
    destruct (String.eqb (Flat.id b) (Flat.drag_id g)); exact Bb.
  - intros cref now e r. unfold Flat.handleMouseUp. unfold bind at 1.
    assert (H1 : Forall Flat_bigEnough
                   (fst (match Flat.drawState s with
                         | Some d => Flat.commitDraw d (Flat.pills s)
                         | None => ret (Flat.pills s)
                         end r))).
    { destruct (Flat.drawState s); [now apply Flat_commitDraw_bigEnough | exact Hs]. }
    destruct (match Flat.drawState s with
              | Some d => Flat.commitDraw d (Flat.pills s)
              | None => ret (Flat.pills s)
              end r) as [pills1 r1].
    cbn [fst] in H1.
    destruct (Flat.dragState s); unfold bind, ret;
      destruct (Flat.isClick _ _);
      try (pose proof (Hsplit (px (Flat.getRelativePosition cref e))
                         (py (Flat.getRelativePosition cref e)) pills1 r1 H1) as K;
           destruct (Flat.splitPillsAt _ _ pills1 r1); exact K);
      exact H1.
Qed.

Lemma X2_flat_pills_stay_big_enough_witness :
  Forall Flat_bigEnough
         (fst (Flat.splitPillsAt 230 60 (Flat.pills sampleFlatState) sampleRand)).
Proof.
  refine (proj1 (X2_flat_pills_stay_big_enough sampleFlatState _) 230 60 sampleRand).
  unfold Flat_bigEnough, Flat.MIN_SPLIT_SIZE. cbn.
  repeat constructor; cbn; lra.
Defined.

(** X3: every pill [splitPillsAt] puts out has the colour of a pill of the
    store, and either has that pill's id, width and height (the pill
    itself, moved at most) or is a child of a cut of it, which starts on
    either axis at that pill's own edge or on the split line. *)
Theorem X3_flat_split_output_comes_from_store :
  forall (splitX splitY : Q) (store : list Flat.Pill) (r : Rand) (q : Flat.Pill),
    In q (fst (Flat.splitPillsAt splitX splitY store r)) ->
    exists p, In p store /\ Flat.color q = Flat.color p /\
              (((Flat.x q = Flat.x p \/ Flat.x q = splitX) /\
                (Flat.y q = Flat.y p \/ Flat.y q = splitY)) \/
               (Flat.id q = Flat.id p /\ Flat.w q = Flat.w p /\ Flat.h q = Flat.h p)).
Proof.
  intros splitX splitY store r q Hq. unfold Flat.splitPillsAt in Hq.
  destruct (flatMapM_In _ q _ _ Hq) as (p & r' & Hp & Hin).
  exists p. split; [exact Hp |].
  destruct (Flat_splitPill_children splitX splitY p r') as (Hc & _ & Hw).
  split; [exact (proj1 (Forall_forall _ _) Hc q Hin) |].
  pose proof (Flat_splitPill_outcome splitX splitY p r') as O. cbv zeta in O.
  destruct O as [(q0 & E & _ & O) | [L _]].
  - right. rewrite E in Hin. destruct Hin as [<- | []]. tauto.
  - left. assert (L' : List.length (fst (Flat.splitPill splitX splitY p r')) <> 1%nat)
      by (destruct L as [L | L]; rewrite L; discriminate).
    exact (proj1 (Forall_forall _ _) (Hw L') (q) Hin).
Qed.

Lemma X3_flat_split_output_comes_from_store_witness :
  exists p, In p sampleStore /\
            Flat.color (Flat.mkPill "id1" 40 0 60 60 "#60a5fa") = Flat.color p /\
            (((Flat.x (Flat.mkPill "id1" 40 0 60 60 "#60a5fa") = Flat.x p \/
               Flat.x (Flat.mkPill "id1" 40 0 60 60 "#60a5fa") = 40) /\
              (Flat.y (Flat.mkPill "id1" 40 0 60 60 "#60a5fa") = Flat.y p \/
               Flat.y (Flat.mkPill "id1" 40 0 60 60 "#60a5fa") = 60)) \/
             (Flat.id (Flat.mkPill "id1" 40 0 60 60 "#60a5fa") = Flat.id p /\
              Flat.w (Flat.mkPill "id1" 40 0 60 60 "#60a5fa") = Flat.w p /\
              Flat.h (Flat.mkPill "id1" 40 0 60 60 "#60a5fa") = Flat.h p)).
Proof.
  apply (X3_flat_split_output_comes_from_store 40 60 sampleStore sampleRand).
  right. left. reflexivity.
Defined.

(** ** The mouse handlers of the flat component *)

Lemma filter_all {A : Type} (f : A -> bool) (l : list A) :
  Forall (fun a => f a = true) l -> filter f l = l.
Proof.
  induction 1 as [| a l Ha _ IH]; cbn; [reflexivity |]. now rewrite Ha, IH.
Qed.

Lemma find_skip {A : Type} (f : A -> bool) (l l' : list A) :
  Forall (fun a => f a = false) l -> find f (l ++ l') = find f l'.
Proof.
  induction 1 as [| a l Ha _ IH]; cbn; [reflexivity |]. now rewrite Ha.
Qed.

Lemma Flat_unique_id_split (l : list Flat.Pill) (t : Flat.Pill) :
  NoDup (map Flat.id l) -> In t l ->
  exists before after,
    l = before ++ t :: after /\
    Forall (fun a => String.eqb (Flat.id a) (Flat.id t) = false) before /\
    Forall (fun a => String.eqb (Flat.id a) (Flat.id t) = false) after.
Proof.
  intros ND Hin. destruct (in_split _ _ Hin) as (before & after & ->).
  exists before, after. split; [reflexivity |].
  rewrite map_app in ND. cbn [map] in ND.
  pose proof (NoDup_remove_2 _ _ _ ND) as Hnot.
  split; apply Forall_forall; intros a Ha; apply String.eqb_neq; intro E;
    apply Hnot; apply in_or_app; [left | right]; rewrite <- E; now apply in_map.
Qed.

(** X5: with unique ids, a mouse down on a pill only reorders the flat
    store: the pill is moved to the end (painted on top), the other pills
    keep their order, and the drag offsets are the pointer position
    relative to the pill's corner; no draw is started. *)
Theorem X5_flat_mouse_down_brings_pill_to_front :
  forall (cref : option Container) (now : Z) (e : MouseEvent)
         (s : Flat.State) (t : Flat.Pill),
    NoDup (map Flat.id (Flat.pills s)) ->
    In t (Flat.pills s) -> Flat.id t <> EmptyString ->
    exists before after s',
      Flat.pills s = before ++ t :: after /\
      Flat.handleMouseDown cref now (Some (Flat.id t)) e s = Some s' /\
      Flat.pills s' = before ++ after ++ [t] /\
      Flat.dragState s'
      = Some (Flat.mkDrag (Flat.id t)
                (px (Flat.getRelativePosition cref e) - Flat.x t)
                (py (Flat.getRelativePosition cref e) - Flat.y t)) /\
      Flat.drawState s' = Flat.drawState s.
Proof.
  intros cref now e s t ND Hin Hid.
  destruct (Flat_unique_id_split _ _ ND Hin) as (before & after & E & Hb & Ha).
  exists before, after. unfold Flat.handleMouseDown.
  apply String.eqb_neq in Hid. rewrite Hid.
  assert (Ef : find (fun pill => String.eqb (Flat.id pill) (Flat.id t)) (Flat.pills s)
               = Some t).
  { rewrite E. rewrite (find_skip _ _ _ Hb). cbn.
    now rewrite String.eqb_refl. }
  rewrite Ef. eexists. split; [exact E |]. split; [reflexivity |].
  cbn [Flat.pills Flat.dragState Flat.drawState].
  split; [| split; reflexivity].
  rewrite E, filter_app. cbn [filter]. rewrite String.eqb_refl. cbn [negb].
  rewrite !filter_all, <- app_assoc; [reflexivity | |];
    apply Forall_forall; intros a Hx;
    [ rewrite (proj1 (Forall_forall _ _) Ha a Hx)
    | rewrite (proj1 (Forall_forall _ _) Hb a Hx) ]; reflexivity.
Qed.

Lemma X5_flat_mouse_down_brings_pill_to_front_witness :
  exists before after s',
    Flat.pills sampleFlatState
    = before ++ Flat.mkPill "a" 0 0 100 100 "#60a5fa" :: after /\
    Flat.handleMouseDown None 0 (Some "a"%string) (mkEvent 30 40) sampleFlatState
    = Some s' /\
    Flat.pills s' = before ++ after ++ [Flat.mkPill "a" 0 0 100 100 "#60a5fa"] /\
    Flat.dragState s'
    = Some (Flat.mkDrag "a" (px (Flat.getRelativePosition None (mkEvent 30 40)) - 0)
                            (py (Flat.getRelativePosition None (mkEvent 30 40)) - 0)) /\
    Flat.drawState s' = Flat.drawState sampleFlatState.
Proof.
  apply (X5_flat_mouse_down_brings_pill_to_front None 0%Z (mkEvent 30 40)
           sampleFlatState (Flat.mkPill "a" 0 0 100 100 "#60a5fa")).
  - cbn. repeat (apply NoDup_cons; [cbn; intuition discriminate |]). apply NoDup_nil.
  - left. reflexivity.
  - discriminate.
Defined.

Lemma Flat_move_skips_others (pid : string) (newX newY : Q) (l : list Flat.Pill) :
  Forall (fun a => negb (String.eqb (Flat.id a) pid) = true) l ->
  map (fun pill =>
         if String.eqb (Flat.id pill) pid
         then Flat.mkPill (Flat.id pill) newX newY
                          (Flat.w pill) (Flat.h pill) (Flat.color pill)
         else pill) l = l.
Proof.
  induction 1 as [| a l Ha _ IH]; cbn [map]; [reflexivity |].
  apply negb_true_iff in Ha. now rewrite Ha, IH.
Qed.

(** X6: a mouse down on a pill followed by a mouse move is a drag: the
    pill ends on top of the flat store with its id, size and colour, at the
    pointer's position less the offset taken at mouse down, which is the
    pointer's position then less the pill's position; the other pills are
    as they were. *)
Theorem X6_flat_drag_follows_pointer :
  forall (cref : option Container) (now : Z) (e0 e1 : MouseEvent)
         (s : Flat.State) (t : Flat.Pill),
    find (fun pill => String.eqb (Flat.id pill) (Flat.id t)) (Flat.pills s) = Some t ->
    Flat.id t <> EmptyString ->
    let p0 := Flat.getRelativePosition cref e0 in
    let p1 := Flat.getRelativePosition cref e1 in
    exists s1 q,
      Flat.handleMouseDown cref now (Some (Flat.id t)) e0 s = Some s1 /\
      Flat.pills (Flat.handleMouseMove cref e1 s1)
      = filter (fun a => negb (String.eqb (Flat.id a) (Flat.id t))) (Flat.pills s)
          ++ [q] /\
      Flat.id q = Flat.id t /\ Flat.color q = Flat.color t /\
      Flat.w q = Flat.w t /\ Flat.h q = Flat.h t /\
      Flat.x q = px p1 - (px p0 - Flat.x t) /\
      Flat.y q = py p1 - (py p0 - Flat.y t).
Proof.
  intros cref now e0 e1 s t Hf Hid p0 p1. subst p0 p1.
  unfold Flat.handleMouseDown. apply String.eqb_neq in Hid. rewrite Hid, Hf.
  eexists. eexists. split; [reflexivity |].
  unfold Flat.handleMouseMove.
  cbn [Flat.dragState Flat.pills Flat.drag_id Flat.dx Flat.dy].
  rewrite map_app. cbn [map]. rewrite String.eqb_refl.
  rewrite Flat_move_skips_others.
  - split; [reflexivity |]. cbn [Flat.id Flat.color Flat.w Flat.h Flat.x Flat.y].
    do 4 (split; [reflexivity |]). split; reflexivity.
  - apply Forall_forall. intros a Ha. apply filter_In in Ha. tauto.
Qed.

Lemma X6_flat_drag_follows_pointer_witness :
  exists s1 q,
    Flat.handleMouseDown None 0 (Some "a"%string) (mkEvent 30 40) sampleFlatState
    = Some s1 /\
    Flat.pills (Flat.handleMouseMove None (mkEvent 80 20) s1)
    = filter (fun a => negb (String.eqb (Flat.id a) "a")) (Flat.pills sampleFlatState)
        ++ [q] /\
    Flat.id q = "a"%string /\ Flat.color q = "#60a5fa"%string /\
    Flat.w q = 100 /\ Flat.h q = 100 /\
    Flat.x q = (80 - 0) - ((30 - 0) - 0) /\ Flat.y q = (20 - 0) - ((40 - 0) - 0).
Proof.
  apply (X6_flat_drag_follows_pointer None 0%Z (mkEvent 30 40) (mkEvent 80 20)
           sampleFlatState (Flat.mkPill "a" 0 0 100 100 "#60a5fa")).
  - reflexivity.
  - discriminate.
Defined.

Lemma far_apart_is_no_click (a b : Q) : 40 <= Qabs a -> hypot_ltb a b 4 = false.
Proof.
  intro H. unfold hypot_ltb. destruct (ltb_spec (a * a + b * b) (4 * 4)) as [L |];
    [exfalso | reflexivity].
  revert H. apply Qabs_case; intros; nra.
Qed.

(** X7: a complete draw gesture in the flat component.  From a state with
    no drag in progress, a mouse down on empty ground, a mouse move and a
    mouse up at a point at least [MIN_DRAW_SIZE] away on both axes append
    exactly one pill to the store: the rectangle spanned by the two points,
    with a freshly drawn id; the gesture is not taken for a click, no
    split happens, and draw and drag state are cleared. *)
Theorem X7_flat_draw_gesture_adds_the_spanned_pill :
  forall (cref : option Container) (now0 now1 : Z) (e0 e1 : MouseEvent)
         (s : Flat.State) (r : Rand),
    let p0 := Flat.getRelativePosition cref e0 in
    let p1 := Flat.getRelativePosition cref e1 in
    Flat.dragState s = None ->
    Flat.MIN_DRAW_SIZE <= Qabs (px p1 - px p0) ->
    Flat.MIN_DRAW_SIZE <= Qabs (py p1 - py p0) ->
    exists s1 q,
      Flat.handleMouseDown cref now0 None e0 s = Some s1 /\
      let s3 := fst (Flat.handleMouseUp cref now1 e1
                       (Flat.handleMouseMove cref e1 s1) r) in
      Flat.pills s3 = Flat.pills s ++ [q] /\
      Flat.id q = ids r (used r) /\
      Flat.x q = Qmin (px p0) (px p1) /\ Flat.y q = Qmin (py p0) (py p1) /\
      Flat.w q = Qabs (px p1 - px p0) /\ Flat.h q = Qabs (py p1 - py p0) /\
      Flat.drawState s3 = None /\ Flat.dragState s3 = None.
Proof.
  intros cref now0 now1 e0 e1 s r p0 p1 Hg HW HH.
  unfold Flat.handleMouseDown. cbn [String.eqb].
  eexists. eexists. split; [reflexivity |].
  unfold Flat.handleMouseMove.
  cbn [Flat.drawState Flat.dragState Flat.pills Flat.sx Flat.sy]. rewrite Hg.
  unfold Flat.handleMouseUp.
  cbn [Flat.drawState Flat.dragState Flat.pills Flat.clickRef Flat.click_x
       Flat.click_y Flat.click_time].
  fold p0. fold p1.
  unfold Flat.isClick. rewrite far_apart_is_no_click
    by (unfold Flat.MIN_DRAW_SIZE in HW; exact HW).
  cbn [andb]. unfold Flat.commitDraw. cbn [Flat.sx Flat.sy Flat.ex Flat.ey].
  rewrite (geb_true _ _ HW), (geb_true _ _ HH). cbn [andb].
  unfold bind, ret, generateId, Flat.getRandomColor, Math_random, bind, ret.
  cbn [fst Flat.pills Flat.drawState Flat.dragState].
  split; [reflexivity |]. cbn [Flat.id Flat.x Flat.y Flat.w Flat.h].
  repeat split; reflexivity.
Qed.

Lemma X7_flat_draw_gesture_adds_the_spanned_pill_witness :
  exists s1 q,
    Flat.handleMouseDown None 0 None (mkEvent 300 300) sampleFlatState = Some s1 /\
    let s3 := fst (Flat.handleMouseUp None 900 (mkEvent 250 380)
                     (Flat.handleMouseMove None (mkEvent 250 380) s1) sampleRand) in
    Flat.pills s3 = Flat.pills sampleFlatState ++ [q] /\
    Flat.id q = "id0"%string /\
    Flat.x q = Qmin (300 - 0) (250 - 0) /\ Flat.y q = Qmin (300 - 0) (380 - 0) /\
    Flat.w q = Qabs (250 - 0 - (300 - 0)) /\ Flat.h q = Qabs (380 - 0 - (300 - 0)) /\
    Flat.drawState s3 = None /\ Flat.dragState s3 = None.
Proof.
  apply (X7_flat_draw_gesture_adds_the_spanned_pill None 0%Z 900%Z
           (mkEvent 300 300) (mkEvent 250 380) sampleFlatState sampleRand).
  - reflexivity.
  - unfold Flat.MIN_DRAW_SIZE. cbn. lra.
  - unfold Flat.MIN_DRAW_SIZE. cbn. lra.
Defined.

(** ** Random colours and positions *)

Lemma floor_scaled (u k : Q) :
  unitInterval u -> 0 <= k ->
  (0 <= Qfloor (u * k))%Z /\ inject_Z (Qfloor (u * k)) <= k /\
  (0 < k -> inject_Z (Qfloor (u * k)) < k).
Proof.
  intros [U0 U1] K.
  assert (P : 0 <= u * k) by nra.
  pose proof (Qfloor_le (u * k)) as F.
  split; [| split].
  - change 0%Z with (Qfloor 0). now apply Qfloor_resp_le.
  - nra.
  - intro K'. nra.
Qed.

Lemma floor_index (u : Q) (n : nat) :
  unitInterval u -> (0 < n)%nat ->
  (Z.to_nat (Qfloor (u * inject_Z (Z.of_nat n))) < n)%nat.
Proof.
  intros U N.
  assert (K : 0 < inject_Z (Z.of_nat n)).
  { change 0 with (inject_Z 0). rewrite <- Zlt_Qlt. lia. }
  destruct (floor_scaled u (inject_Z (Z.of_nat n)) U (Qlt_le_weak _ _ K))
    as (F0 & _ & F1).
  specialize (F1 K). rewrite <- Zlt_Qlt in F1. lia.
Qed.

(** X8: the colour of a new shape always comes from the palette: when
    [Math.random()] yields a number in [0, 1), [getRandomColor] of the flat
    component returns one of the three [PILL_COLORS] and
    [generateRandomColor] of the window manager one of its six [colors]
    (never the [undefined] of an index out of range). *)
Theorem X8_random_colour_is_in_palette :
  forall r : Rand,
    unitInterval (floats r (used r)) ->
    In (fst (Flat.getRandomColor r)) Flat.PILL_COLORS /\
    In (fst (WindowManager.generateRandomColor r)) WindowManager.colors.
Proof.
  intros r U. split.
  - unfold Flat.getRandomColor, bind, ret, Math_random. cbn [fst].
    apply nth_In. apply floor_index; [exact U | cbn; lia].
  - unfold WindowManager.generateRandomColor, bind, ret, Math_random. cbn [fst].
    apply nth_In. apply floor_index; [exact U | cbn; lia].
Qed.

Lemma X8_random_colour_is_in_palette_witness :
  In (fst (Flat.getRandomColor sampleRand)) Flat.PILL_COLORS /\
  In (fst (WindowManager.generateRandomColor sampleRand)) WindowManager.colors.
Proof.
  apply (X8_random_colour_is_in_palette sampleRand).
  unfold unitInterval. cbn. lra.
Defined.

(** ** The window manager *)

(** X9: [handleAddWindow] appends exactly one window, 300 x 200, to the
    list and leaves the others as they were; when the viewport is at least
    300 x 200 and [Math.random()] yields numbers in [0, 1), the new window
    lies wholly inside the viewport and its colour is one of [colors]. *)
Theorem X9_added_window_is_visible :
  forall (v : WindowManager.Viewport) (windows : list WindowManager.WindowData)
         (r : Rand),
    300 <= WindowManager.innerWidth v -> 200 <= WindowManager.innerHeight v ->
    unitInterval (floats r (1 + used r)) ->
    unitInterval (floats r (2 + used r)) ->
    unitInterval (floats r (3 + used r)) ->
    exists w,
      fst (WindowManager.handleAddWindow v windows r) = windows ++ [w] /\
      WindowManager.id w = ids r (used r) /\
      In (WindowManager.color w) WindowManager.colors /\
      WindowManager.size w = WindowManager.mkSize 300 200 /\
      WindowManager.visible v (WindowManager.position w) (WindowManager.size w).
Proof.
  intros v windows r HW HH U1 U2 U3. cbn [Nat.add] in U1, U2, U3.
  unfold WindowManager.handleAddWindow, WindowManager.generateRandomColor,
    WindowManager.generateRandomPosition, bind, ret, generateId, Math_random.
  cbn [fst tick used floats ids].
  eexists. split; [reflexivity |].
  cbn [WindowManager.id WindowManager.color WindowManager.size
       WindowManager.position].
  split; [reflexivity |].
  split; [apply nth_In; apply floor_index; [exact U1 | cbn; lia] |].
  split; [reflexivity |].
  unfold WindowManager.visible.
  cbn [WindowManager.x WindowManager.y WindowManager.width WindowManager.height].
  destruct (floor_scaled _ (WindowManager.innerWidth v - 300) U2) as (A0 & A1 & _);
    [lra |].
  destruct (floor_scaled _ (WindowManager.innerHeight v - 200) U3) as (B0 & B1 & _);
    [lra |].
  rewrite Zle_Qle in A0, B0. change (inject_Z 0) with 0 in A0, B0.
  repeat split; lra.
Qed.

Lemma X9_added_window_is_visible_witness :
  exists w,
    fst (WindowManager.handleAddWindow sampleViewport sampleWindows sampleRand2)
    = sampleWindows ++ [w] /\
    WindowManager.id w = "w0"%string /\
    In (WindowManager.color w) WindowManager.colors /\
    WindowManager.size w = WindowManager.mkSize 300 200 /\
    WindowManager.visible sampleViewport (WindowManager.position w)
                          (WindowManager.size w).
Proof.
  apply (X9_added_window_is_visible sampleViewport sampleWindows sampleRand2);
    unfold unitInterval; cbn; lra.
Defined.

(** X10: [handleRemoveWindow] removes exactly the windows with the given
    id: none with that id is left, every other window stays, in order, and
    removing an id no window has changes nothing. *)
Theorem X10_remove_window_by_id :
  forall (i : string) (windows : list WindowManager.WindowData),
    let rest := WindowManager.handleRemoveWindow i windows in
    Forall (fun w => WindowManager.id w <> i) rest /\
    (forall w, WindowManager.id w <> i -> (In w rest <-> In w windows)) /\
    (exists dropped, Permutation windows (rest ++ dropped) /\
                     Forall (fun w => WindowManager.id w = i) dropped) /\
    (Forall (fun w => WindowManager.id w <> i) windows -> rest = windows) /\
    WindowManager.handleRemoveWindow i rest = rest.
Proof.
  intros i windows rest. subst rest. unfold WindowManager.handleRemoveWindow.
  split; [| split; [| split; [| split]]].
  - apply Forall_forall. intros w Hw. apply filter_In in Hw.
    destruct Hw as [_ Hw]. apply negb_true_iff in Hw. now apply String.eqb_neq.
  - intros w Hw. rewrite filter_In. apply String.eqb_neq in Hw. rewrite Hw.
    cbn. tauto.
  - exists (filter (fun w => String.eqb (WindowManager.id w) i) windows). split.
    + induction windows as [| a l IH]; cbn [filter]; [constructor |].
      destruct (String.eqb (WindowManager.id a) i); cbn [negb].
      * apply Permutation_cons_app. exact IH.
      * cbn [app]. now constructor.
    + apply Forall_forall. intros w Hw. apply filter_In in Hw.
      now apply String.eqb_eq.
  - intro H. apply filter_all. apply Forall_forall. intros w Hw.
    apply negb_true_iff, String.eqb_neq.
    exact (proj1 (Forall_forall _ _) H w Hw).
  - apply filter_all. apply Forall_forall. intros w Hw. apply filter_In in Hw. tauto.
Qed.

Lemma X10_remove_window_by_id_witness :
  WindowManager.handleRemoveWindow "c" sampleWindows = sampleWindows.
Proof.
  apply (proj1 (proj2 (proj2 (proj2 (X10_remove_window_by_id "c" sampleWindows))))).
  repeat constructor; discriminate.
Defined.

Lemma Qclamp_inside (lo hi v : Q) : lo <= v <= hi -> Qmax lo (Qmin hi v) == v.
Proof. intro H. minmax_cases; lra. Qed.

Lemma Qclamp_range (lo hi v : Q) : lo <= hi -> lo <= Qmax lo (Qmin hi v) <= hi.
Proof. intro H. minmax_cases; lra. Qed.

(** X11: dragging a window by its title bar.  A mouse down on the title
    bar followed by mouse moves puts the window at its starting position
    plus the pointer's displacement for as long as that stays inside the
    viewport, and otherwise at the nearest position inside (for a window no
    larger than the viewport); the position depends on the last pointer
    position only, so nothing accumulates.  A mouse down elsewhere in the
    window starts nothing, and after the mouse up further moves do
    nothing. *)
Theorem X11_window_drag_is_relative_and_clamped :
  forall (v : WindowManager.Viewport) (sz : WindowManager.Size)
         (e0 e1 e2 : MouseEvent) (w : WindowManager.WindowState),
    let w1 := WindowManager.handleMouseDown true e0 w in
    let w2 := WindowManager.handleMouseMove v sz e1 w1 in
    let dx := clientX e1 - clientX e0 in
    let dy := clientY e1 - clientY e0 in
    let maxX := WindowManager.innerWidth v - WindowManager.width sz in
    let maxY := WindowManager.innerHeight v - WindowManager.height sz in
    WindowManager.isDragging w2 = true /\
    (0 <= WindowManager.x (WindowManager.pos w) + dx <= maxX ->
     WindowManager.x (WindowManager.pos w2) == WindowManager.x (WindowManager.pos w) + dx) /\
    (0 <= WindowManager.y (WindowManager.pos w) + dy <= maxY ->
     WindowManager.y (WindowManager.pos w2) == WindowManager.y (WindowManager.pos w) + dy) /\
    (0 <= maxX -> 0 <= WindowManager.x (WindowManager.pos w2) <= maxX) /\
    (0 <= maxY -> 0 <= WindowManager.y (WindowManager.pos w2) <= maxY) /\
    WindowManager.handleMouseMove v sz e2 w2 = WindowManager.handleMouseMove v sz e2 w1 /\
    WindowManager.handleMouseDown false e0 w = w /\
    WindowManager.handleMouseMove v sz e2 (WindowManager.handleMouseUp w2)
    = WindowManager.mkWindowState false (WindowManager.pos w2) None.
Proof.
  intros v sz e0 e1 e2 w w1 w2 dx dy maxX maxY. subst w1 w2 dx dy maxX maxY.
  unfold WindowManager.handleMouseDown, WindowManager.handleMouseMove,
    WindowManager.handleMouseUp.
  cbn [negb WindowManager.session WindowManager.isDragging WindowManager.pos
       WindowManager.x WindowManager.y WindowManager.startX WindowManager.startY
       WindowManager.initX WindowManager.initY].
  split; [reflexivity |].
  split; [intro H; now apply Qclamp_inside |].
  split; [intro H; now apply Qclamp_inside |].
  split; [intro H; now apply Qclamp_range |].
  split; [intro H; now apply Qclamp_range |].
  repeat split; reflexivity.
Qed.

Lemma X11_window_drag_is_relative_and_clamped_witness :
  WindowManager.x
    (WindowManager.pos
       (WindowManager.handleMouseMove sampleViewport (WindowManager.mkSize 300 200)
          (mkEvent 80 90)
          (WindowManager.handleMouseDown true (mkEvent 60 20)
             (WindowManager.initialWindow (WindowManager.mkPosition 10 10)))))
  == 10 + (80 - 60).
Proof.
  apply (X11_window_drag_is_relative_and_clamped sampleViewport
           (WindowManager.mkSize 300 200) (mkEvent 60 20) (mkEvent 80 90)
           (mkEvent 0 0) (WindowManager.initialWindow (WindowManager.mkPosition 10 10))).
  cbn. lra.
Defined.

(** ** Whole-store facts about [onSingleClick] *)

Lemma Corner_clickLoop_Forall cref (splitX splitY : Q)
      (P R : Corner.PillPart -> Prop) :
  (forall p r, P p -> Forall R (fst (fst (Corner.clickPill cref splitX splitY p r)))) ->
  forall todo acc changed r,
    Forall R acc -> Forall P todo ->
    Forall R (fst (fst (Corner.clickLoop cref splitX splitY todo acc changed r))).
Proof.
  intros Hf. induction todo as [| p todo IH]; intros acc changed r Ha Ht.
  - exact Ha.
  - cbn [Corner.clickLoop]. unfold bind.
    inversion Ht as [| ? ? Pp Pt]; subst.
    pose proof (Hf p r Pp) as Hp.
    destruct (Corner.clickPill cref splitX splitY p r) as [res r1].
    apply IH; [| exact Pt]. apply Forall_app. now split.
Qed.

Lemma Corner_clickLoop_In cref (splitX splitY : Q) (q : Corner.PillPart) :
  forall todo acc changed r,
    In q (fst (fst (Corner.clickLoop cref splitX splitY todo acc changed r))) ->
    In q acc \/
    exists p r', In p todo /\
                 In q (fst (fst (Corner.clickPill cref splitX splitY p r'))).
Proof.
  induction todo as [| p todo IH]; intros acc changed r Hq.
  - now left.
  - cbn [Corner.clickLoop] in Hq. unfold bind in Hq.
    destruct (Corner.clickPill cref splitX splitY p r) as [res r1] eqn:Ep.
    destruct (IH _ _ _ Hq) as [Ha | (p' & r' & Hp' & Hq')].
    + apply in_app_or in Ha. destruct Ha as [Ha | Ha]; [now left |].
      right. exists p, r. split; [now left |]. now rewrite Ep.
    + right. exists p', r'. split; [now right | exact Hq'].
Qed.

(** The pills of the store after [onSingleClick]: the store itself, or what
    the loop has collected. *)
Lemma Corner_onSingleClick_pills cref (s : Corner.State) (r : Rand) :
  Corner.pills (fst (Corner.onSingleClick cref s r)) = Corner.pills s \/
  exists c changed,
    Corner.cursor s = Some c /\
    Corner.pills (fst (Corner.onSingleClick cref s r))
    = fst (fst (Corner.clickLoop cref (px c) (py c) (Corner.pills s) [] changed r)).
Proof.
  unfold Corner.onSingleClick.
  destruct (match Corner.drawingRef s with
            | Some d => Corner.drawing d | None => false end); [now left |].
  destruct (match Corner.dragRef s with
            | Some g => Corner.dragging g | None => false end); [now left |].
  destruct (Corner.cursor s) as [c |]; [| now left].
  unfold bind, ret.
  destruct (Corner.clickLoop cref (px c) (py c) (Corner.pills s) [] false r)
    as [res r1] eqn:E.
  destruct (snd res); [| now left].
  right. exists c, false. split; [reflexivity |]. now rewrite E.
Qed.

Lemma Corner_movePartAside_color cref (part : Corner.PillPart) line splitAt :
  Corner.color (Corner.movePartAside cref part line splitAt) = Corner.color part.
Proof. apply (Corner_movePartAside_frame cref part line splitAt). Qed.

Lemma Corner_movePartAside_radius cref (part : Corner.PillPart) line splitAt :
  Corner.borderRadius (Corner.movePartAside cref part line splitAt)
  = Corner.borderRadius part.
Proof. apply (Corner_movePartAside_frame cref part line splitAt). Qed.

(** What the loop body puts out for one pill. *)
Lemma Corner_clickPill_children cref (splitX splitY : Q)
      (p : Corner.PillPart) (r : Rand) :
  let out := fst (fst (Corner.clickPill cref splitX splitY p r)) in
  Forall (fun q => Corner.color q = Corner.color p) out /\
  Forall (Corner_noRounder p) out /\
  (Corner_bigEnough p -> Forall Corner_bigEnough out) /\
  (Corner_inContainer cref p -> Forall (Corner_inContainer cref) out).
Proof.
  cbv zeta.
  destruct (Corner.isDrawing p) eqn:HD.
  { rewrite Corner_clickPill_drawing by exact HD. cbn [fst].
    split; [constructor; [reflexivity | constructor] |].
    split; [constructor; [unfold Corner_noRounder; cbv zeta; tauto | constructor] |].
    split; intro B; (constructor; [exact B | constructor]). }
  click_cases splitX splitY p; cbn [fst];
    (split; [repeat (apply Forall_cons; [rewrite ?Corner_movePartAside_color; reflexivity |]);
             apply Forall_nil |]);
    (split; [repeat (apply Forall_cons;
                     [unfold Corner_noRounder; rewrite ?Corner_movePartAside_radius;
                      cbn; destruct (Corner.borderRadius p) as [[] [] [] []];
                      cbn; repeat split; congruence |]);
             apply Forall_nil |]);
    (split; intro B;
     unfold Corner_bigEnough, Corner_inContainer, Corner.passesX, Corner.passesY,
       Corner.MIN_PART_SIZE, Corner.movePartAside in *;
     repeat (apply Forall_cons;
             [cbn; repeat (cmp_step; cbn); minmax_cases; repeat split; lra |]);
     apply Forall_nil).
Qed.

Lemma Corner_filter_Forall {A : Type} (P : A -> Prop) (f : A -> bool) (l : list A) :
  Forall P l -> Forall P (filter f l).
Proof.
  intro H. apply Forall_forall. intros a Ha. apply filter_In in Ha.
  exact (proj1 (Forall_forall _ _) H a (proj1 Ha)).
Qed.

Lemma Corner_updateAt_Forall {A : Type} (P : A -> Prop) (l : list A) (i : nat) (v : A) :
  Forall P l -> P v -> Forall P (Corner.updateAt l i v).
Proof.
  intros H Hv. revert i. induction H as [| a l Ha Hl IH]; intros [| i]; cbn;
    try constructor; auto.
Qed.

(** X16: no part of the corner store is ever below the minimum part size.
    If every part is at least [MIN_PART_SIZE] wide and high, this still
    holds after [onSingleClick], [onMouseDown], [onMouseMove] and
    [onMouseUp] (the preview is at least [MIN_PILL_SIZE], a child of a cut
    is wider than [MIN_PART_SIZE], and nothing else changes a size). *)
Theorem X16_corner_parts_stay_big_enough :
  forall (cref : option Container) (s : Corner.State),
    Forall Corner_bigEnough (Corner.pills s) ->
    (forall r, Forall Corner_bigEnough
                      (Corner.pills (fst (Corner.onSingleClick cref s r)))) /\
    (forall target e, Forall Corner_bigEnough
                             (Corner.pills (Corner.onMouseDown cref target e s))) /\
    (forall e, Forall Corner_bigEnough (Corner.pills (Corner.onMouseMove cref e s))) /\
    (forall r, Forall Corner_bigEnough (Corner.pills (fst (Corner.onMouseUp s r)))).
Proof.
  intros cref s Hs.
  assert (Hprev : forall l t wd ht,
             Corner_bigEnough
               (Corner.drawingPill l t (Qmax wd Corner.MIN_PILL_SIZE)
                                   (Qmax ht Corner.MIN_PILL_SIZE))).
  { intros. unfold Corner_bigEnough, Corner.MIN_PART_SIZE, Corner.MIN_PILL_SIZE.
    cbn [Corner.width Corner.height Corner.drawingPill]. minmax_cases; lra. }
  split; [| split; [| split]].
  - intro r.
    destruct (Corner_onSingleClick_pills cref s r) as [-> | (c & ch & _ & ->)];
      [exact Hs |].
    apply (Corner_clickLoop_Forall cref (px c) (py c) Corner_bigEnough Corner_bigEnough);
      [| constructor | exact Hs].
    intros p r0 Hp. now apply (Corner_clickPill_children cref (px c) (py c) p r0).
  - intros target e. unfold Corner.onMouseDown.
    destruct target as [[| ? ?] |]; try exact Hs;
      (destruct cref as [c |]; [| exact Hs]); cbn [Corner.pills];
      (apply Forall_app; split; [exact Hs |]);
      (constructor; [| constructor]);
      unfold Corner_bigEnough, Corner.MIN_PART_SIZE, Corner.MIN_PILL_SIZE;
      cbn; lra.
  - intro e. unfold Corner.onMouseMove. destruct cref as [c |]; [| exact Hs].
    cbn [Corner.pills].
    assert (Hdrawn : Forall Corner_bigEnough
              match Corner.drawingRef s with
              | Some d =>
                  if Corner.drawing d
                  then filter (fun p => negb (Corner.isDrawing p)) (Corner.pills s)
                       ++ [Corner.drawingPill
                             (Qmin (clientX e - rect_left c) (Corner.startX d))
                             (Qmin (clientY e - rect_top c) (Corner.startY d))
                             (Qmax (Qabs (clientX e - rect_left c - Corner.startX d))
                                   Corner.MIN_PILL_SIZE)
                             (Qmax (Qabs (clientY e - rect_top c - Corner.startY d))
                                   Corner.MIN_PILL_SIZE)]
                  else Corner.pills s
              | None => Corner.pills s
              end).
    { destruct (Corner.drawingRef s) as [d |]; [| exact Hs].
      destruct (Corner.drawing d); [| exact Hs].
      apply Forall_app. split; [now apply Corner_filter_Forall |].
      constructor; [apply Hprev | constructor]. }
    destruct (Corner.dragRef s) as [g |]; [| exact Hdrawn].
    destruct (Corner.dragging g); [| exact Hdrawn].
    destruct (Corner.findIndex _ (Corner.pills s)) as [i |]; [| exact Hdrawn].
    destruct (nth_error (Corner.pills s) i) as [pill |] eqn:En; [| exact Hdrawn].
    apply Corner_updateAt_Forall; [exact Hs |].
    apply nth_error_In in En.
    exact (proj1 (Forall_forall _ _) Hs pill En).
  - intro r. unfold Corner.onMouseUp.
    destruct (Corner.drawingRef s) as [d |]; [| exact Hs].
    destruct (Corner.drawing d); [| exact Hs].
    destruct (find Corner.isDrawing (Corner.pills s)) as [pill |] eqn:Ef;
      [| exact Hs].
    apply find_some in Ef. destruct Ef as [Ef _].
    pose proof (proj1 (Forall_forall _ _) Hs pill Ef) as Bp.
    destruct ((Corner.width pill >=? Corner.MIN_PILL_SIZE)
              && (Corner.height pill >=? Corner.MIN_PILL_SIZE)).
    + unfold bind, ret, generateId, Corner.randomColor, Math_random, bind, ret.
      cbn [fst Corner.pills]. apply Forall_app.
      split; [now apply Corner_filter_Forall |].
      constructor; [exact Bp | constructor].
    + cbn [fst ret Corner.pills]. now apply Corner_filter_Forall.
Qed.

Lemma X16_corner_parts_stay_big_enough_witness :
  Forall Corner_bigEnough
         (Corner.pills (fst (Corner.onSingleClick (Some sampleContainer)
                               sampleCornerState sampleRand))).
Proof.
  refine (proj1 (X16_corner_parts_stay_big_enough (Some sampleContainer)
                   sampleCornerState _) sampleRand).
  unfold Corner_bigEnough, Corner.MIN_PART_SIZE. cbn.
  repeat constructor; cbn; lra.
Defined.

(** X17: [onSingleClick] keeps the store inside the container: when every
    part lies within the container before the click, every part does
    after it (children lie within their parent, and [movePartAside] clamps
    to the container). *)
Theorem X17_corner_click_keeps_parts_in_container :
  forall (cref : option Container) (s : Corner.State) (r : Rand),
    Forall (Corner_inContainer cref) (Corner.pills s) ->
    Forall (Corner_inContainer cref)
           (Corner.pills (fst (Corner.onSingleClick cref s r))).
Proof.
  intros cref s r Hs.
  destruct (Corner_onSingleClick_pills cref s r) as [-> | (c & ch & _ & ->)];
    [exact Hs |].
  apply (Corner_clickLoop_Forall cref (px c) (py c)
           (Corner_inContainer cref) (Corner_inContainer cref));
    [| constructor | exact Hs].
  intros p r0 Hp. now apply (Corner_clickPill_children cref (px c) (py c) p r0).
Qed.

Lemma X17_corner_click_keeps_parts_in_container_witness :
  Forall (Corner_inContainer (Some sampleContainer))
         (Corner.pills (fst (Corner.onSingleClick (Some sampleContainer)
                               sampleCornerState sampleRand))).
Proof.
  apply (X17_corner_click_keeps_parts_in_container (Some sampleContainer)
           sampleCornerState sampleRand).
  unfold Corner_inContainer. cbn. repeat constructor; cbn; lra.
Defined.

(** X18: [onSingleClick] invents neither colours nor rounded corners:
    every part of the store after the click has the colour of a part of
    the store before it, and is rounded on no corner on which that part
    was square. *)
Theorem X18_corner_click_adds_no_colour_no_rounding :
  forall (cref : option Container) (s : Corner.State) (r : Rand) (q : Corner.PillPart),
    In q (Corner.pills (fst (Corner.onSingleClick cref s r))) ->
    exists p, In p (Corner.pills s) /\
              Corner.color q = Corner.color p /\ Corner_noRounder p q.
Proof.
  intros cref s r q Hq.
  assert (Hself : forall p, Corner_noRounder p p)
    by (intro p; unfold Corner_noRounder; cbv zeta; tauto).
  destruct (Corner_onSingleClick_pills cref s r) as [E | (c & ch & _ & E)];
    rewrite E in Hq.
  - exists q. now repeat split.
  - apply Corner_clickLoop_In in Hq.
    destruct Hq as [[] | (p & r' & Hp & Hq)].
    exists p. split; [exact Hp |].
    destruct (Corner_clickPill_children cref (px c) (py c) p r') as (Hc & Hr & _).
    split.
    + exact (proj1 (Forall_forall _ _) Hc q Hq).
    + exact (proj1 (Forall_forall _ _) Hr q Hq).
Qed.

Lemma X18_corner_click_adds_no_colour_no_rounding_witness :
  exists p, In p (Corner.pills sampleCornerState) /\
            Corner.color samplePart = Corner.color p /\ Corner_noRounder p samplePart.
Proof.
  apply (X18_corner_click_adds_no_colour_no_rounding (Some sampleContainer)
           sampleCornerState sampleRand samplePart).
  left. reflexivity.
Defined.

(** ** Gestures of the corner component *)

Lemma Corner_filter_preview (base : list Corner.PillPart) (preview : Corner.PillPart) :
  Forall (fun p => Corner.isDrawing p = false) base ->
  Corner.isDrawing preview = true ->
  filter (fun p => negb (Corner.isDrawing p)) (base ++ [preview]) = base.
Proof.
  intros Hb Hp. rewrite filter_app. cbn [filter]. rewrite Hp. cbn [negb].
  rewrite app_nil_r. apply filter_all.
  apply Forall_forall. intros a Ha.
  now rewrite (proj1 (Forall_forall _ _) Hb a Ha).
Qed.

Lemma Corner_onMouseMove_keeps_drawing (c : Container) (e : MouseEvent)
      (base : list Corner.PillPart) (s : Corner.State) :
  Forall (fun p => Corner.isDrawing p = false) base ->
  drawingOver base s -> drawingOver base (Corner.onMouseMove (Some c) e s).
Proof.
  intros Hb (d & preview & Hd & Hdr & Hg & Hp & Hi & HW & HH).
  unfold drawingOver, Corner.onMouseMove. rewrite Hd, Hdr, Hg, Hp.
  rewrite (Corner_filter_preview _ _ Hb Hi).
  cbn [Corner.drawingRef Corner.dragRef Corner.pills].
  exists d. eexists. split; [reflexivity |]. split; [exact Hdr |].
  split; [reflexivity |]. split; [reflexivity |]. split; [reflexivity |].
  cbn [Corner.width Corner.height Corner.drawingPill]. split; apply Q.le_max_r.
Qed.

(** X19: in the corner component every draw gesture adds a pill.  From a
    state with no preview and no drag, a mouse down on empty ground,
    any number of mouse moves and a mouse up replace nothing and append
    exactly one pill: fully rounded, with a freshly drawn id, and at least
    [MIN_PILL_SIZE] wide and high however short the drag was; the preview
    is gone and the draw is over. *)
Theorem X19_corner_draw_gesture_always_adds_a_pill :
  forall (c : Container) (target : option string) (e0 : MouseEvent)
         (moves : list MouseEvent) (s : Corner.State) (r : Rand),
    target = None \/ target = Some EmptyString ->
    Forall (fun p => Corner.isDrawing p = false) (Corner.pills s) ->
    Corner.dragRef s = None ->
    let s1 := Corner.onMouseDown (Some c) target e0 s in
    let s2 := fold_left (fun st e => Corner.onMouseMove (Some c) e st) moves s1 in
    exists q,
      Corner.pills (fst (Corner.onMouseUp s2 r)) = Corner.pills s ++ [q] /\
      Corner.id q = ids r (used r) /\
      Corner.borderRadius q = Corner.allRounded /\
      Corner.MIN_PILL_SIZE <= Corner.width q /\
      Corner.MIN_PILL_SIZE <= Corner.height q /\
      Corner.drawingRef (fst (Corner.onMouseUp s2 r)) = None.
Proof.
  intros c target e0 moves s r Ht Hb Hg s1 s2.
  assert (H1 : drawingOver (Corner.pills s) s1).
  { subst s1. unfold Corner.onMouseDown.
    destruct Ht as [-> | ->];
      (eexists; eexists; cbn [Corner.drawingRef Corner.dragRef Corner.pills];
       split; [reflexivity |]; split; [reflexivity |]; split; [exact Hg |];
       split; [reflexivity |]; split; [reflexivity |];
       unfold Corner.MIN_PILL_SIZE; cbn; lra). }
  assert (H2 : drawingOver (Corner.pills s) s2).
  { subst s2. clearbody s1. revert s1 H1.
    induction moves as [| e moves IH]; intros s1 H1; cbn [fold_left];
      [exact H1 |].
    apply IH. now apply Corner_onMouseMove_keeps_drawing. }
  clearbody s2. clear H1 s1.
  destruct H2 as (d & preview & Hd & Hdr & _ & Hp & Hi & HW & HH).
  unfold Corner.onMouseUp. rewrite Hd, Hdr, Hp.
  rewrite find_skip by exact Hb. cbn [find]. rewrite Hi.
  rewrite (geb_true _ _ HW), (geb_true _ _ HH). cbn [andb].
  rewrite (Corner_filter_preview _ _ Hb Hi).
  unfold bind, ret, generateId, Corner.randomColor, Math_random, bind, ret.
  cbn [fst Corner.pills Corner.drawingRef].
  eexists. split; [reflexivity |].
  cbn [Corner.id Corner.borderRadius Corner.width Corner.height].
  repeat split; assumption || reflexivity.
Qed.

Lemma X19_corner_draw_gesture_always_adds_a_pill_witness :
  exists q,
    Corner.pills
      (fst (Corner.onMouseUp
              (fold_left (fun st e => Corner.onMouseMove (Some sampleContainer) e st)
                         [mkEvent 305 300; mkEvent 310 302]
                         (Corner.onMouseDown (Some sampleContainer) None
                                             (mkEvent 300 300) sampleCornerState))
              sampleRand))
    = Corner.pills sampleCornerState ++ [q] /\
    Corner.id q = "id0"%string /\
    Corner.borderRadius q = Corner.allRounded /\
    Corner.MIN_PILL_SIZE <= Corner.width q /\
    Corner.MIN_PILL_SIZE <= Corner.height q /\
    Corner.drawingRef
      (fst (Corner.onMouseUp
              (fold_left (fun st e => Corner.onMouseMove (Some sampleContainer) e st)
                         [mkEvent 305 300; mkEvent 310 302]
                         (Corner.onMouseDown (Some sampleContainer) None
                                             (mkEvent 300 300) sampleCornerState))
              sampleRand)) = None.
Proof.
  apply (X19_corner_draw_gesture_always_adds_a_pill sampleContainer None
           (mkEvent 300 300) [mkEvent 305 300; mkEvent 310 302]
           sampleCornerState sampleRand).
  - left. reflexivity.
  - repeat constructor.
  - reflexivity.
Defined.

(** X20: dragging a part of the corner store.  After [onDragStart] on a
    part, a mouse move puts that part at the pointer's position in the
    container less the offset taken by [onDragStart] (the pointer's
    position then less the part's position), clamped to the container on
    each axis, hence exactly there on each axis on which that lies inside
    the container; the part keeps its place in the store, its id and its
    size; and once [onDragEnd] has run, mouse moves leave the store alone
    (when no draw is in progress). *)
Theorem X20_corner_drag_follows_pointer :
  forall (c : Container) (e0 e1 e2 : MouseEvent) (s : Corner.State)
         (i : nat) (pill : Corner.PillPart),
    Corner.findIndex (fun p => String.eqb (Corner.id p) (Corner.id pill))
                     (Corner.pills s) = Some i ->
    nth_error (Corner.pills s) i = Some pill ->
    let s1 := Corner.onDragStart (Some c) e0 (Corner.id pill)
                                 (Corner.x pill) (Corner.y pill) s in
    let s2 := Corner.onMouseMove (Some c) e1 s1 in
    let newX := clientX e1 - rect_left c
                - (clientX e0 - rect_left c - Corner.x pill) in
    let newY := clientY e1 - rect_top c
                - (clientY e0 - rect_top c - Corner.y pill) in
    exists q,
      Corner.pills s2 = Corner.updateAt (Corner.pills s) i q /\
      Corner.id q = Corner.id pill /\
      Corner.width q = Corner.width pill /\ Corner.height q = Corner.height pill /\
      Corner.x q = Qmax 0 (Qmin newX (clientWidth c - Corner.width pill)) /\
      Corner.y q = Qmax 0 (Qmin newY (clientHeight c - Corner.height pill)) /\
      (0 <= newX <= clientWidth c - Corner.width pill -> Corner.x q == newX) /\
      (0 <= newY <= clientHeight c - Corner.height pill -> Corner.y q == newY) /\
      (Corner.drawingRef s = None ->
       Corner.pills (Corner.onMouseMove (Some c) e2 (Corner.onDragEnd s2))
       = Corner.pills s2).
Proof.
  intros c e0 e1 e2 s i pill Hi Hn s1 s2 newX newY. subst s1 s2 newX newY.
  unfold Corner.onDragStart, Corner.onMouseMove at 1 2.
  cbn [Corner.dragRef Corner.dragging Corner.pills Corner.pillId
       Corner.offsetX Corner.offsetY Corner.drawingRef].
  rewrite Hi, Hn.
  eexists. split; [reflexivity |].
  cbn [Corner.id Corner.width Corner.height Corner.x Corner.y].
  split; [reflexivity |]. split; [reflexivity |]. split; [reflexivity |].
  split; [reflexivity |]. split; [reflexivity |].
  split; [| split].
  - intro H. minmax_cases; lra.
  - intro H. minmax_cases; lra.
  - intro Hd. unfold Corner.onMouseMove, Corner.onDragEnd.
    cbn [Corner.dragRef Corner.drawingRef Corner.pills]. rewrite Hd. reflexivity.
Qed.

Lemma X20_corner_drag_follows_pointer_witness :
  exists q,
    Corner.pills
      (Corner.onMouseMove (Some sampleContainer) (mkEvent 400 130)
         (Corner.onDragStart (Some sampleContainer) (mkEvent 150 110) "p"
                             100 100 (Corner.mkState [sampleWidePart] None None None)))
    = Corner.updateAt [sampleWidePart] 0 q /\
    Corner.id q = "p"%string /\
    Corner.width q = 100 /\ Corner.height q = 25 /\
    Corner.x q = Qmax 0 (Qmin (400 - 0 - (150 - 0 - 100)) (1000 - 100)) /\
    Corner.y q = Qmax 0 (Qmin (130 - 0 - (110 - 0 - 100)) (800 - 25)) /\
    (0 <= 400 - 0 - (150 - 0 - 100) <= 1000 - 100 ->
     Corner.x q == 400 - 0 - (150 - 0 - 100)) /\
    (0 <= 130 - 0 - (110 - 0 - 100) <= 800 - 25 ->
     Corner.y q == 130 - 0 - (110 - 0 - 100)) /\
    (@None Corner.DrawingRef = None ->
     Corner.pills
       (Corner.onMouseMove (Some sampleContainer) (mkEvent 0 0)
          (Corner.onDragEnd
             (Corner.onMouseMove (Some sampleContainer) (mkEvent 400 130)
                (Corner.onDragStart (Some sampleContainer) (mkEvent 150 110) "p"
                   100 100 (Corner.mkState [sampleWidePart] None None None)))))
     = Corner.pills
         (Corner.onMouseMove (Some sampleContainer) (mkEvent 400 130)
            (Corner.onDragStart (Some sampleContainer) (mkEvent 150 110) "p"
               100 100 (Corner.mkState [sampleWidePart] None None None)))).
Proof.
  apply (X20_corner_drag_follows_pointer sampleContainer (mkEvent 150 110)
           (mkEvent 400 130) (mkEvent 0 0)
           (Corner.mkState [sampleWidePart] None None None) 0%nat sampleWidePart);
    reflexivity.
Defined.

(** X21: the clamp of a drag lets an oversized part overhang on the far
    side only: whatever the pointer does, a dragged part wider than the
    container is put at x = 0 and one higher than the container at
    y = 0. *)
Theorem X21_corner_oversized_part_is_pinned :
  forall (c : Container) (e : MouseEvent) (s : Corner.State)
         (g : Corner.DragRef) (i : nat) (pill : Corner.PillPart),
    Corner.dragRef s = Some g -> Corner.dragging g = true ->
    Corner.findIndex (fun p => String.eqb (Corner.id p) (Corner.pillId g))
                     (Corner.pills s) = Some i ->
    nth_error (Corner.pills s) i = Some pill ->
    exists q,
      nth_error (Corner.pills (Corner.onMouseMove (Some c) e s)) i = Some q /\
      (clientWidth c < Corner.width pill -> Corner.x q == 0) /\
      (clientHeight c < Corner.height pill -> Corner.y q == 0).
Proof.
  intros c e s g i pill Hg Hdr Hi Hn.
  unfold Corner.onMouseMove. rewrite Hg, Hdr, Hi, Hn. cbn [Corner.pills].
  eexists. split; [exact (nth_error_updateAt_same _ _ _ _ Hn) |].
  cbn [Corner.x Corner.y]. split; intro H; minmax_cases; lra.
Qed.

Lemma X21_corner_oversized_part_is_pinned_witness :
  exists q,
    nth_error
      (Corner.pills
         (Corner.onMouseMove (Some (mkContainer 0 0 80 60)) (mkEvent 400 130)
                             sampleCornerDrag)) 0 = Some q /\
    (80 < Corner.width samplePart -> Corner.x q == 0) /\
    (60 < Corner.height samplePart -> Corner.y q == 0).
Proof.
  apply (X21_corner_oversized_part_is_pinned (mkContainer 0 0 80 60) (mkEvent 400 130)
           sampleCornerDrag (Corner.mkDragRef "p" 5 5 true) 0%nat samplePart);
    reflexivity.
Defined.

(** ** Clicks, and how many pills a split leaves *)

Lemma Qabs_self_diff (a : Q) : Qabs (a - a) < 40.
Proof. apply Qabs_case; intros; lra. Qed.

(** X22: a click on empty ground is a split at the release point.  In the
    flat component, from a state with no drag in progress, a mouse down on
    empty ground followed by a mouse up less than 4 px away and less than
    300 ms later adds no pill and leaves the store as [splitPillsAt] at the
    release point makes it, with draw and drag state cleared. *)
Theorem X22_flat_click_on_empty_ground_splits :
  forall (cref : option Container) (now0 now1 : Z) (e0 e1 : MouseEvent)
         (s : Flat.State) (r : Rand),
    let p0 := Flat.getRelativePosition cref e0 in
    let p1 := Flat.getRelativePosition cref e1 in
    Flat.dragState s = None ->
    (px p1 - px p0) * (px p1 - px p0) + (py p1 - py p0) * (py p1 - py p0) < 16 ->
    (now1 - now0 < 300)%Z ->
    exists s1,
      Flat.handleMouseDown cref now0 None e0 s = Some s1 /\
      Flat.handleMouseUp cref now1 e1 s1 r
      = (Flat.mkState (fst (Flat.splitPillsAt (px p1) (py p1) (Flat.pills s) r))
                      (Flat.cursor s) None None
                      (Flat.mkClick (px p0) (py p0) now0 EmptyString),
         snd (Flat.splitPillsAt (px p1) (py p1) (Flat.pills s) r)).
Proof.
  intros cref now0 now1 e0 e1 s r p0 p1 Hg Hnear Hfast.
  unfold Flat.handleMouseDown. cbn [String.eqb].
  eexists. split; [reflexivity |].
  unfold Flat.handleMouseUp.
  cbn [Flat.drawState Flat.dragState Flat.pills Flat.clickRef Flat.click_x
       Flat.click_y Flat.click_time Flat.cursor].
  fold p0. fold p1. rewrite Hg.
  unfold Flat.isClick, hypot_ltb.
  rewrite (ltb_true _ (4 * 4)) by (setoid_replace (4 * 4) with 16 by ring; exact Hnear).
  apply Z.ltb_lt in Hfast. rewrite Hfast. cbn [andb].
  unfold Flat.commitDraw. cbn [Flat.sx Flat.sy Flat.ex Flat.ey].
  destruct (geb_spec (Qabs (px p0 - px p0)) Flat.MIN_DRAW_SIZE) as [B |].
  { exfalso. pose proof (Qabs_self_diff (px p0)). unfold Flat.MIN_DRAW_SIZE in B. lra. }
  cbn [andb]. unfold bind, ret.
  destruct (Flat.splitPillsAt (px p1) (py p1) (Flat.pills s) r). reflexivity.
Qed.

Lemma X22_flat_click_on_empty_ground_splits_witness :
  exists s1,
    Flat.handleMouseDown None 1000 None (mkEvent 230 60) sampleFlatState = Some s1 /\
    Flat.handleMouseUp None 1100 (mkEvent 231 61) s1 sampleRand
    = (Flat.mkState
         (fst (Flat.splitPillsAt (231 - 0) (61 - 0) (Flat.pills sampleFlatState)
                                 sampleRand))
         (Flat.cursor sampleFlatState) None None
         (Flat.mkClick (230 - 0) (60 - 0) 1000 EmptyString),
       snd (Flat.splitPillsAt (231 - 0) (61 - 0) (Flat.pills sampleFlatState)
                              sampleRand)).
Proof.
  apply (X22_flat_click_on_empty_ground_splits None 1000%Z 1100%Z
           (mkEvent 230 60) (mkEvent 231 61) sampleFlatState sampleRand).
  - reflexivity.
  - cbn. lra.
  - reflexivity.
Defined.

Lemma flatMapM_length {A B : Type} (f : A -> M (list B)) :
  (forall a r, (1 <= List.length (fst (f a r)) <= 4)%nat) ->
  forall l r,
    (List.length l <= List.length (fst (flatMapM f l r)) <= 4 * List.length l)%nat.
Proof.
  intros Hf l. induction l as [| a l IH]; intro r.
  - cbn. lia.
  - cbn [flatMapM]. unfold bind, ret.
    pose proof (Hf a r) as Ha.
    destruct (f a r) as [bs r1].
    specialize (IH r1).
    destruct (flatMapM f l r1) as [rest r2].
    cbn [fst] in *. rewrite length_app. cbn [List.length]. lia.
Qed.

Lemma Corner_clickLoop_length cref (splitX splitY : Q) :
  forall todo acc changed r,
    (List.length acc + List.length todo
     <= List.length (fst (fst (Corner.clickLoop cref splitX splitY todo acc changed r)))
     <= List.length acc + 4 * List.length todo)%nat.
Proof.
  induction todo as [| p todo IH]; intros acc changed r.
  - cbn. lia.
  - cbn [Corner.clickLoop]. unfold bind.
    pose proof (Corner_clickPill_outcome cref splitX splitY p r) as O.
    cbv zeta in O.
    destruct (Corner.clickPill cref splitX splitY p r) as [res r1].
    cbn [fst snd] in O.
    specialize (IH (acc ++ fst res) (changed || snd res) r1).
    rewrite length_app in IH. cbn [List.length].
    destruct O as [(q & E & _) | [[L | L] _]];
      [rewrite E in IH |- *; cbn [List.length] in IH | rewrite L in IH ..]; lia.
Qed.

(** X23: a split never removes a pill and makes at most four of one: the
    store [splitPillsAt] returns, and the store after [onSingleClick], hold
    at least as many pills as before and at most four times as many. *)
Theorem X23_split_leaves_one_to_four_pills_each :
  (forall (splitX splitY : Q) (store : list Flat.Pill) (r : Rand),
      (List.length store
       <= List.length (fst (Flat.splitPillsAt splitX splitY store r))
       <= 4 * List.length store)%nat)
  /\
  (forall (cref : option Container) (s : Corner.State) (r : Rand),
      (List.length (Corner.pills s)
       <= List.length (Corner.pills (fst (Corner.onSingleClick cref s r)))
       <= 4 * List.length (Corner.pills s))%nat).
Proof.
  split.
  - intros splitX splitY store r. unfold Flat.splitPillsAt.
    apply flatMapM_length. intros a r0.
    pose proof (Flat_splitPill_outcome splitX splitY a r0) as O. cbv zeta in O.
    destruct O as [(q & E & _) | [[L | L] _]];
      [rewrite E; cbn | rewrite L ..]; lia.
  - intros cref s r.
    destruct (Corner_onSingleClick_pills cref s r) as [-> | (c & ch & _ & ->)];
      [lia |].
    pose proof (Corner_clickLoop_length cref (px c) (py c) (Corner.pills s) [] ch r) as K.
    cbn [List.length] in K. lia.
Qed.
